(** * Pametni-Urnik: access control and hierarchical data access

  A shallow embedding of the server-side request handlers
  ([login], the four [courses] handlers) and of the user profile
  service ([saveUser], [updateUser], ...), together with the
  properties the specification states about them.

  The JavaScript sources are asynchronous functions over an Express
  request/response pair and a Firestore handle.  They are embedded in
  a state-and-exception monad [M] over an environment [Env] that holds
  the clock, the document store, the response under construction and a
  trace of the calls made to collaborators.  Each request is run to
  completion on its own; what the handlers print to the console is
  left out.

  Of the browser side, the state handling is embedded as functions on
  the state of each component: the branches hook, the menus and the
  handlers of the timetable page. *)

From Stdlib Require Import ZArith Ascii String List.
From stdpp Require Import base option list gmap strings.
Import ListNotations.

Local Open Scope string_scope.
Local Open Scope Z_scope.

(* ===================================================================== *)
(** * JavaScript values and string primitives                             *)
(* ===================================================================== *)

Module Js.

(** Numbers that occur as identifiers and filter values. *)
Inductive Num :=
| Int (z : Z)
| NaN.

(** The values a JSON body field can hold, as far as the handlers
    look at them; [Object] stands for any array or object. *)
Inductive Value :=
| Undefined
| Null
| Bool (b : bool)
| Number (n : Num)
| Str (s : string)
| Object.

#[global] Instance Num_eq_dec : EqDecision Num.
Proof. solve_decision. Defined.

#[global] Instance Value_eq_dec : EqDecision Value.
Proof. solve_decision. Defined.

(** ToBoolean: [!v] is [negb (truthy v)]. *)
Definition truthy (v : Value) : bool :=
  match v with
  | Undefined | Null => false
  | Bool b => b
  | Number (Int z) => negb (Z.eqb z 0)
  | Number NaN => false
  | Str s => negb (String.eqb s EmptyString)
  | Object => true
  end.

(** Truthiness of a value that is a string or [undefined]. *)
Definition truthy_str (v : option string) : bool :=
  match v with
  | None => false
  | Some s => negb (String.eqb s EmptyString)
  end.

(** The string a value tested to be truthy holds; the tests of the
    handlers make the other case unreachable. *)
Definition the (v : option string) : string := default EmptyString v.

(** [a === b] where [a] is a string or [undefined] and [b] a string. *)
Definition strict_eq (a : option string) (b : string) : bool :=
  match a with
  | None => false
  | Some s => String.eqb s b
  end.

(** [s.startsWith(p)] *)
Definition startsWith (s p : string) : bool := String.prefix p s.

(** [s.split(sep)] for a one-character separator: the segments between
    the occurrences of [sep]; never an empty array. *)
Fixpoint split (sep : ascii) (s : string) : list string :=
  match s with
  | EmptyString => [EmptyString]
  | String c rest =>
      if Ascii.eqb c sep then EmptyString :: split sep rest
      else match split sep rest with
           | [] => [String c EmptyString]
           | seg :: segs => String c seg :: segs
           end
  end.

(** [arr[i]]: [None] is [undefined]. *)
Definition index {A} (arr : list A) (i : nat) : option A := nth_error arr i.

(** [s] contains the character [c]. *)
Fixpoint contains (c : ascii) (s : string) : bool :=
  match s with
  | EmptyString => false
  | String d rest => Ascii.eqb d c || contains c rest
  end.

End Js.

(* ===================================================================== *)
(** * The document store (Firestore), as the services see it             *)
(* ===================================================================== *)

Module Firestore.

(** A field of a stored document. *)
Inductive FieldValue :=
| FNumber (n : Js.Num)
| FString (s : string)
| FBool (b : bool)
| FNull.

#[global] Instance FieldValue_eq_dec : EqDecision FieldValue.
Proof. solve_decision. Defined.

(** [doc.data()]: a finite map from field names to values. *)
Abbreviation Doc := (gmap string FieldValue).

(** A document of a faculty sub-collection, at
    [faculties/{facultyId}/{collectionName}/{item_id}]. *)
Record Item := { item_id : string; item_data : Doc }.

(** [users/{uid}] *)
Abbreviation Users := (gmap string Doc).

(** [faculties/{facultyId}/{collectionName}], each sub-collection
    listed in the order a query returns its documents. *)
Abbreviation Faculties := (gmap string (gmap string (list Item))).

(** [field == value] of a [where] clause: equality of typed values, so
    the number 3 never equals the string "3". *)
Definition field_eq (field : string) (value : FieldValue) (it : Item) : bool :=
  bool_decide (item_data it !! field = Some value).

(** [collection.where(field, "==", value)] over the documents of one
    sub-collection. *)
Definition where_eq (field : string) (value : FieldValue)
    (docs : list Item) : list Item :=
  List.filter (field_eq field value) docs.

(** The documents of [faculties/{fid}/{coll}]; a path nothing was ever
    written to lists no documents. *)
Definition collection (fs : Faculties) (fid coll : string) : list Item :=
  match fs !! fid with
  | Some colls => default [] (colls !! coll)
  | None => []
  end.

End Firestore.

(* ===================================================================== *)
(** * Session tokens (jsonwebtoken)                                       *)
(* ===================================================================== *)

Module Jwt.

(** The claims of a token: the payload given to [jwt.sign] plus the
    timestamps the library adds, in seconds since the epoch. *)
Record Payload := { uid : Js.Value; iat : Z; exp : Z }.

(** A syntactically well-formed token: claims and signature. *)
Record Token := { payload : Payload; signature : string }.

(** What a request presents where a token is expected. *)
Inductive Presented :=
| Absent
| Malformed (raw : string)
| WellFormed (t : Token).

#[global] Instance Payload_eq_dec : EqDecision Payload.
Proof. solve_decision. Defined.

#[global] Instance Token_eq_dec : EqDecision Token.
Proof. solve_decision. Defined.

(** The value of a run of leading decimal digits, and what follows. *)
Fixpoint leading_digits (acc : Z) (s : string) : Z * string :=
  match s with
  | String c rest =>
      let n := Z.of_N (N_of_ascii c) in
      if (48 <=? n)%Z && (n <=? 57)%Z
      then leading_digits (10 * acc + (n - 48)) rest
      else (acc, s)
  | EmptyString => (acc, s)
  end.

(** The [ms] package on a whole number followed by a unit, such as
    ["1h"]: milliseconds, or [None] when the text is not such a span. *)
Definition ms (span : string) : option Z :=
  match span with
  | EmptyString => None
  | String c _ =>
      let n := Z.of_N (N_of_ascii c) in
      if (48 <=? n)%Z && (n <=? 57)%Z then
        let '(v, unit) := leading_digits 0 span in
        if String.eqb unit "ms" || String.eqb unit EmptyString then Some v
        else if String.eqb unit "s" then Some (v * 1000)
        else if String.eqb unit "m" then Some (v * 60000)
        else if String.eqb unit "h" then Some (v * 3600000)
        else if String.eqb unit "d" then Some (v * 86400000)
        else None
      else None
  end.

End Jwt.

(* ===================================================================== *)
(** * Requests and responses (Express)                                    *)
(* ===================================================================== *)

Module Http.

Record Request := {
  method : string;
  (** [request.headers.authorization]; [None] is [undefined] *)
  authorization : option string;
  (** [request.body.uid] *)
  body_uid : Js.Value;
  (** [request.query]; a missing parameter is [undefined] *)
  query : gmap string string;
  (** the session token the request carries, as [checkJwt] reads it *)
  token : Jwt.Presented
}.

Record Cookie := {
  cookie_name : string;
  cookie_value : Jwt.Token;
  httpOnly : bool;
  secure : bool;
  sameSite : string
}.

Inductive Data :=
| One (it : Firestore.Item)
| Many (its : list Firestore.Item).

Inductive Body :=
| Text (s : string)
| JsonMessage (message : string)
| JsonResult (result : Data).

Record Response := {
  statusCode : Z;
  headers : list (string * string);
  cookies : list Cookie;
  body : option Body
}.

(** A response nothing was written to yet. *)
Definition fresh : Response :=
  {| statusCode := 200; headers := []; cookies := []; body := None |}.

Definition set (name value : string) (r : Response) : Response :=
  {| statusCode := statusCode r; headers := headers r ++ [(name, value)];
     cookies := cookies r; body := body r |}.

Definition status (code : Z) (r : Response) : Response :=
  {| statusCode := code; headers := headers r;
     cookies := cookies r; body := body r |}.

Definition send (b : Body) (r : Response) : Response :=
  {| statusCode := statusCode r; headers := headers r;
     cookies := cookies r; body := Some b |}.

Definition cookie (c : Cookie) (r : Response) : Response :=
  {| statusCode := statusCode r; headers := headers r;
     cookies := cookies r ++ [c]; body := body r |}.

End Http.

(* ===================================================================== *)
(** * Effects: clock, store, response, exceptions                         *)
(* ===================================================================== *)

Module Eff.

(** What a [throw] or a rejected promise carries: the handlers throw
    bare strings and [Error] objects. *)
Inductive Thrown :=
| ThrowStr (s : string)
| ThrowError (message : string).

(** A write sent to the [users] collection. *)
Inductive Write :=
| WSet (id : string) (data : Firestore.Doc)
| WUpdate (id : string) (data : Firestore.Doc)
| WDelete (id : string).

Inductive Event :=
| Called (callee : string)
| Wrote (w : Write).

Record Env := {
  (** [Date.now()], milliseconds since the epoch *)
  now : Z;
  users : Firestore.Users;
  faculties : Firestore.Faculties;
  (** the response object of the request being handled *)
  response : Http.Response;
  (** calls to collaborators and writes to the store, oldest first *)
  trace : list Event
}.

Inductive Outcome (A : Type) :=
| Returned (a : A)
| Threw (t : Thrown).
Arguments Returned {A} a.
Arguments Threw {A} t.

Definition M (A : Type) : Type := Env -> Outcome A * Env.

Definition ret {A} (a : A) : M A := fun e => (Returned a, e).

Definition bind {A B} (m : M A) (k : A -> M B) : M B :=
  fun e => match m e with
           | (Returned a, e') => k a e'
           | (Threw t, e') => (Threw t, e')
           end.

Definition throw {A} (t : Thrown) : M A := fun e => (Threw t, e).

(** [try { body } catch (error) { handler }] *)
Definition try_catch {A} (body : M A) (handler : Thrown -> M A) : M A :=
  fun e => match body e with
           | (Returned a, e') => (Returned a, e')
           | (Threw t, e') => handler t e'
           end.

Definition Date_now : M Z := fun e => (Returned (now e), e).

Definition with_response (f : Http.Response -> Http.Response) (e : Env) : Env :=
  {| now := now e; users := users e; faculties := faculties e;
     response := f (response e); trace := trace e |}.

Definition with_users (f : Firestore.Users -> Firestore.Users) (e : Env) : Env :=
  {| now := now e; users := f (users e); faculties := faculties e;
     response := response e; trace := trace e |}.

Definition with_event (ev : Event) (e : Env) : Env :=
  {| now := now e; users := users e; faculties := faculties e;
     response := response e; trace := trace e ++ [ev] |}.

(** A method call on the response object. *)
Definition respond (f : Http.Response -> Http.Response) : M unit :=
  fun e => (Returned tt, with_response f e).

Definition log (ev : Event) : M unit :=
  fun e => (Returned tt, with_event ev e).

(** The environment after the CORS header, [response.status(code)] and
    a body were written to the response. *)
Definition answered (code : Z) (b : Http.Body) (e : Env) : Env :=
  with_response (Http.send b)
    (with_response (Http.status code)
       (with_response (Http.set "Access-Control-Allow-Origin" "*") e)).

(** [await callee(...)] on an imported collaborator. *)
Definition call {A} (callee : string) (m : M A) : M A :=
  bind (log (Called callee)) (fun _ => m).

(** [error === s] for a caught value and a string literal. *)
Definition is_str (error : Thrown) (s : string) : bool :=
  match error with
  | ThrowStr s' => String.eqb s' s
  | ThrowError _ => false
  end.

(** [error.message]; a thrown string has none. *)
Definition message (t : Thrown) : string :=
  match t with
  | ThrowStr _ => "undefined"
  | ThrowError m => m
  end.

(** [db.collection('users').doc(id).get()]: [None] when [!doc.exists]. *)
Definition users_get (id : string) : M (option Firestore.Doc) :=
  fun e => (Returned (users e !! id), e).

(** [ref.set(data)]: the document becomes exactly [data]. *)
Definition users_set (id : string) (data : Firestore.Doc) : M unit :=
  fun e => (Returned tt, with_event (Wrote (WSet id data))
                           (with_users (insert id data) e)).

(** [ref.update(data)]: the fields of [data] are merged over the stored
    document; the store rejects an update of a document that is not
    there. *)
Definition users_update (id : string) (data : Firestore.Doc) : M unit :=
  fun e => match users e !! id with
           | Some old =>
               (Returned tt, with_event (Wrote (WUpdate id data))
                               (with_users (insert id (data ∪ old)) e))
           | None => (Threw (ThrowError "NOT_FOUND: No document to update"), e)
           end.

(** [ref.delete()] *)
Definition users_delete (id : string) : M unit :=
  fun e => (Returned tt, with_event (Wrote (WDelete id))
                           (with_users (delete id) e)).

End Eff.

Notation "'let*' x := m 'in' k" := (Eff.bind m (fun x => k))
  (at level 10, x name, m at level 100, k at level 200).
Notation "m >> k" := (Eff.bind m (fun _ => k))
  (at level 90, right associativity).

Import Eff.

(* ===================================================================== *)
(** * Configuration and platform functions                                *)
(* ===================================================================== *)

(** [functions.config().auth] *)
Record Config := {
  secret_key : string;
  password : string;
  username : string
}.

(** Functions of the platform the handlers call: they are fixed for a
    deployment and the properties below hold for every choice. *)
Record Platform := {
  (** [Buffer.from(s, 'base64').toString('ascii')] *)
  base64_ascii : string -> string;
  (** the HS256 signature of a token's claims under a secret *)
  hs256 : string -> Jwt.Payload -> string;
  (** [Number(s)] on a query-string value *)
  toNumber : string -> Js.Num
}.

(* ===================================================================== *)
(** * service/userService.js                                              *)
(* ===================================================================== *)

Module UserService.

Import Firestore.

(** Modelled from the spec: [filterForAllowedKeys] of
    [utils/batchOperations] is not among the sources; the spec says it
    filters the updates down to the allow-listed field names, any other
    key being silently dropped. *)
Definition filterForAllowedKeys (updates : Doc) (allowed : list string) : Doc :=
  filter (fun kv => kv.1 ∈ allowed) updates.

(** The profile [{ uid, role: 'Student' }] written for a new user. *)
Definition newProfile (uid : string) : Doc :=
  <["uid" := FString uid]> (<["role" := FString "Student"]> ∅).

Definition saveUser (uid : string) : M bool :=
  let* userDoc := users_get uid in
  if negb (bool_decide (is_Some userDoc)) then
    users_set uid (newProfile uid) >>
    ret false
  else ret true.

Definition getUserById (uid : string) : M Doc :=
  let* userDoc := users_get uid in
  match userDoc with
  | None => throw (ThrowError ("User with uid " ++ uid ++ " not found"))
  | Some user => ret user
  end.

Section Update.

(** [userAllowedKeys] of [constants/constants], which is not among the
    sources: the allow-list is a parameter. *)
Variable userAllowedKeys : list string.

Definition updateUser (uid : string) (updates : Doc) : M string :=
  let filteredUpdates := filterForAllowedKeys updates userAllowedKeys in
  let* userDoc := users_get uid in
  if negb (bool_decide (is_Some userDoc)) then
    throw (ThrowError ("No user found with ID: " ++ uid))
  else
    users_update uid filteredUpdates >>
    ret ("User document with ID: " ++ uid ++ " updated successfully.").

End Update.

Definition deleteUser (uid : string) : M string :=
  let* userDoc := users_get uid in
  if negb (bool_decide (is_Some userDoc)) then
    throw (ThrowError ("No user found with ID: " ++ uid))
  else
    users_delete uid >>
    ret "User deleted successfully".

Section Verify.

(** [isValidEmail] of [utils/batchOperations], which is not among the
    sources: the test is a parameter. *)
Variable isValidEmail : Js.Value -> bool.

Definition verifyUser (uid : string) (email : Js.Value) : M bool :=
  let* userDoc := users_get uid in
  if negb (bool_decide (is_Some userDoc)) then
    throw (ThrowError "User not found")
  else if negb (isValidEmail email) then
    throw (ThrowError "Invalid email address")
  else ret true.

End Verify.

End UserService.

(* ===================================================================== *)
(** * Token issue and verification                                        *)
(* ===================================================================== *)

Module TokenService.

Import Jwt.

Section WithConfig.

Context (auth : Config) (rt : Platform).

(** [jwt.sign(payload, secret, { expiresIn })]: the library stamps the
    claims with the issue time in whole seconds and with the expiry the
    span gives, then signs them. *)
Definition sign (subject : Js.Value) (secret : string) (expiresIn : string)
    : M Token :=
  let* t := Date_now in
  match ms expiresIn with
  | None => throw (ThrowError "invalid expiresIn option")
  | Some span =>
      let issued := t / 1000 in
      let claims := {| uid := subject; iat := issued;
                       exp := issued + span / 1000 |} in
      ret {| payload := claims; signature := hs256 rt secret claims |}
  end.

(** The token [login] issues:
    [jwt.sign({ uid: uid }, secretKey, { expiresIn: '1h' })]. *)
Definition issue (subjectId : Js.Value) : M Token :=
  sign subjectId (secret_key auth) "1h".

(** The signature of a token checks against the current secret. *)
Definition signature_ok (t : Token) : bool :=
  String.eqb (signature t) (hs256 rt (secret_key auth) (payload t)).

(** The expiry of a token has passed at clock reading [t] (in ms). *)
Definition expired_at (t : Z) (tok : Token) : bool :=
  exp (payload tok) <=? t / 1000.

(** Modelled from the spec: [checkJwt] of [service/authenticationService]
    is not among the sources.  The spec's [verify]: the token must be
    present, well-formed, signature-valid and unexpired; it fails with
    ['TokenExpired'] when the signature is valid but the expiry has
    passed and with ['Unauthorized'] for any other failure; on success it
    yields the subject identity. *)
Definition verify (presented : Presented) : M Js.Value :=
  let* t := Date_now in
  match presented with
  | WellFormed tok =>
      if signature_ok tok then
        if expired_at t tok then throw (ThrowStr "TokenExpired")
        else ret (uid (payload tok))
      else throw (ThrowStr "Unauthorized")
  | Malformed _ => throw (ThrowStr "Unauthorized")
  | Absent => throw (ThrowStr "Unauthorized")
  end.

(** Modelled from the spec: [checkJwt(request)] verifies the token the
    request carries. *)
Definition checkJwt (request : Http.Request) : M Js.Value :=
  verify (Http.token request).

End WithConfig.

End TokenService.

(* ===================================================================== *)
(** * The login handler                                                   *)
(* ===================================================================== *)

Module Login.

Import Http.

Section WithConfig.

Context (auth : Config) (rt : Platform).

Definition secretKey : string := secret_key auth.
Definition adminPassword : string := password auth.
Definition adminUsername : string := username auth.

(** [[username, password] = credentials.split(':')] followed by the
    comparison with the configured pair. *)
Definition credentials_match (credentials : string) : bool :=
  let parts := Js.split ":" credentials in
  let username := Js.index parts 0 in
  let password := Js.index parts 1 in
  Js.strict_eq username adminUsername && Js.strict_eq password adminPassword.

(** The decoded credentials of a request with a Basic header; [None]
    when there is no such header. *)
Definition credentials (request : Request) : option string :=
  let authHeader := authorization request in
  if Js.truthy_str authHeader && Js.startsWith (Js.the authHeader) "Basic " then
    base64_ascii rt <$> Js.index (Js.split " " (Js.the authHeader)) 1
  else None.

(** The request passes the credential gate. *)
Definition authenticated (request : Request) : bool :=
  match credentials request with
  | Some c => credentials_match c
  | None => false
  end.

(** The user name, respectively the password, the handler reads out of
    a request. *)
Definition presented_username (request : Request) : option string :=
  c ← credentials request; Js.index (Js.split ":" c) 0.

Definition presented_password (request : Request) : option string :=
  c ← credentials request; Js.index (Js.split ":" c) 1.

Definition login (request : Request) : M unit :=
  respond (set "Access-Control-Allow-Origin" "*") >>
  if negb (String.eqb (method request) "POST") then
    respond (status 405) >> respond (send (Text "Method Not Allowed"))
  else
    let authHeader := authorization request in
    let uid := body_uid request in
    if negb (Js.truthy_str authHeader)
       || negb (Js.startsWith (Js.the authHeader) "Basic ") then
      respond (status 401) >> respond (send (Text "Unauthorized"))
    else
      match Js.index (Js.split " " (Js.the authHeader)) 1 with
      | None => throw (ThrowError "The first argument must be of type string")
      | Some base64Credentials =>
          let credentials := base64_ascii rt base64Credentials in
          if credentials_match credentials then
            if negb (Js.truthy uid) then
              respond (status 400) >> respond (send (Text "Incomplete request"))
            else
              let* token := TokenService.issue auth rt uid in
              respond (cookie {| cookie_name := "token"; cookie_value := token;
                                 httpOnly := true; secure := true;
                                 sameSite := "Strict" |}) >>
              respond (status 200) >>
              respond (send (JsonMessage "Login successful"))
          else
            respond (status 401) >> respond (send (Text "Unauthorized"))
      end.

(** The environment a successful login leaves behind. *)
Definition logged_in (uid : Js.Value) (e : Env) : Env :=
  with_response
    (fun r =>
       send (JsonMessage "Login successful")
         (status 200
            (cookie {| cookie_name := "token";
                       cookie_value :=
                         let claims :=
                           {| Jwt.uid := uid; Jwt.iat := now e / 1000;
                              Jwt.exp := now e / 1000 + 3600 |} in
                         {| Jwt.payload := claims;
                            Jwt.signature :=
                              hs256 rt (secret_key auth) claims |};
                       httpOnly := true; secure := true;
                       sameSite := "Strict" |}
               (set "Access-Control-Allow-Origin" "*" r)))) e.

End WithConfig.

End Login.

(* ===================================================================== *)
(** * service/facultyCollections                                          *)
(* ===================================================================== *)

Module FacultyCollections.

Import Firestore.

(** Modelled from the spec: [getAllFacultyCollectionItems] is not among
    the sources; it lists every document of the sub-collection, the
    empty sequence when there is none. *)
Definition getAllFacultyCollectionItems (facultyId collectionName : string)
    : M (list Item) :=
  fun e => (Returned (collection (faculties e) facultyId collectionName), e).

(** Modelled from the spec: [getItemByFacultyAndCollectionAndItemId] is
    not among the sources; a point lookup that fails when the document
    is absent. *)
Definition getItemByFacultyAndCollectionAndItemId
    (facultyId collectionName itemId : string) : M Item :=
  fun e =>
    match List.find (fun it => String.eqb (item_id it) itemId)
                    (collection (faculties e) facultyId collectionName) with
    | Some it => (Returned it, e)
    | None => (Threw (ThrowError "NotFound"), e)
    end.

(** Modelled from the spec: [getItemByFacultyAndCollectionAndFilterById]
    is not among the sources; an equality filter on one named field with
    a numeric value, as the [where(field, "==", Number(v))] queries of
    the client hooks, the empty sequence when nothing matches. *)
Definition getItemByFacultyAndCollectionAndFilterById
    (facultyId collectionName fieldName : string) (fieldValue : Js.Num)
    : M (list Item) :=
  fun e =>
    (Returned (where_eq fieldName (FNumber fieldValue)
                 (collection (faculties e) facultyId collectionName)), e).

End FacultyCollections.

(* ===================================================================== *)
(** * The course handlers                                                 *)
(* ===================================================================== *)

(** The functions the handlers import from [service/]. *)
Record Services := {
  checkJwt : Http.Request -> M Js.Value;
  getAllFacultyCollectionItems : string -> string -> M (list Firestore.Item);
  getItemByFacultyAndCollectionAndItemId :
    string -> string -> string -> M Firestore.Item;
  getItemByFacultyAndCollectionAndFilterById :
    string -> string -> string -> Js.Num -> M (list Firestore.Item)
}.

Module Courses.

Import Http.

Section WithServices.

Context (svc : Services) (rt : Platform).

(** The [catch] block shared by the four handlers, up to the prefix of
    the last message. *)
Definition on_error (prefix : string) (error : Thrown) : M unit :=
  if is_str error "TokenExpired" then
    respond (status 401) >> respond (send (Text "Token has expired"))
  else if is_str error "Unauthorized" then
    respond (status 401) >> respond (send (Text "Unauthorized"))
  else
    respond (status 500) >> respond (send (Text (prefix ++ message error))).

Definition getOneById (request : Request) : M unit :=
  respond (set "Access-Control-Allow-Origin" "*") >>
  let facultyId := query request !! "facultyId" in
  let courseId := query request !! "courseId" in
  if negb (Js.truthy_str facultyId) then
    respond (status 400) >> respond (send (Text "No faculty ID sent"))
  else if negb (Js.truthy_str courseId) then
    respond (status 400) >> respond (send (Text "No course sent"))
  else
    try_catch
      (call "checkJwt" (checkJwt svc request) >>
       let* result := call "getItemByFacultyAndCollectionAndItemId"
                        (getItemByFacultyAndCollectionAndItemId svc
                           (Js.the facultyId) "courses" (Js.the courseId)) in
       respond (status 200) >> respond (send (JsonResult (One result))))
      (on_error "Failed to find course: ").

Definition getAllForFaculty (request : Request) : M unit :=
  respond (set "Access-Control-Allow-Origin" "*") >>
  let facultyId := query request !! "facultyId" in
  if negb (Js.truthy_str facultyId) then
    respond (status 400) >> respond (send (Text "No faculty ID sent"))
  else
    try_catch
      (call "checkJwt" (checkJwt svc request) >>
       let* result := call "getAllFacultyCollectionItems"
                        (getAllFacultyCollectionItems svc
                           (Js.the facultyId) "courses") in
       respond (status 200) >> respond (send (JsonResult (Many result))))
      (on_error "Failed to find courses for faculty: ").

Definition getAllForProgram (request : Request) : M unit :=
  respond (set "Access-Control-Allow-Origin" "*") >>
  let facultyId := query request !! "facultyId" in
  let programId := query request !! "programId" in
  if negb (Js.truthy_str facultyId) then
    respond (status 400) >> respond (send (Text "No faculty ID sent"))
  else if negb (Js.truthy_str programId) then
    respond (status 400) >> respond (send (Text "No program sent"))
  else
    try_catch
      (call "checkJwt" (checkJwt svc request) >>
       let* result := call "getItemByFacultyAndCollectionAndFilterById"
                        (getItemByFacultyAndCollectionAndFilterById svc
                           (Js.the facultyId) "courses" "programId"
                           (toNumber rt (Js.the programId))) in
       respond (status 200) >> respond (send (JsonResult (Many result))))
      (on_error "Failed to find courses: ").

Definition getAllForBranch (request : Request) : M unit :=
  respond (set "Access-Control-Allow-Origin" "*") >>
  let facultyId := query request !! "facultyId" in
  let branchId := query request !! "branchId" in
  if negb (Js.truthy_str facultyId) then
    respond (status 400) >> respond (send (Text "No faculty ID sent"))
  else if negb (Js.truthy_str branchId) then
    respond (status 400) >> respond (send (Text "No branch sent"))
  else
    try_catch
      (call "checkJwt" (checkJwt svc request) >>
       let* result := call "getItemByFacultyAndCollectionAndFilterById"
                        (getItemByFacultyAndCollectionAndFilterById svc
                           (Js.the facultyId) "courses" "branchId"
                           (toNumber rt (Js.the branchId))) in
       respond (status 200) >> respond (send (JsonResult (Many result))))
      (on_error "Failed to find courses: ").

End WithServices.

(** The protected handlers, each with the query parameters it requires
    and the prefix of its failure message. *)
Definition protected
    : list (list string * (Services -> Platform -> Request -> M unit)) :=
  [ (["facultyId"; "courseId"], fun svc _ => getOneById svc);
    (["facultyId"], fun svc _ => getAllForFaculty svc);
    (["facultyId"; "programId"], getAllForProgram);
    (["facultyId"; "branchId"], getAllForBranch) ].

(** The request carries every one of the required query parameters. *)
Definition complete (params : list string) (request : Request) : bool :=
  forallb (fun p => Js.truthy_str (query request !! p)) params.

(** The handlers wired to the services as the spec describes them. *)
Definition services (auth : Config) (rt : Platform) : Services :=
  {| checkJwt := TokenService.checkJwt auth rt;
     getAllFacultyCollectionItems :=
       FacultyCollections.getAllFacultyCollectionItems;
     getItemByFacultyAndCollectionAndItemId :=
       FacultyCollections.getItemByFacultyAndCollectionAndItemId;
     getItemByFacultyAndCollectionAndFilterById :=
       FacultyCollections.getItemByFacultyAndCollectionAndFilterById |}.

End Courses.

(* ===================================================================== *)
(** * A concrete deployment, for the examples                             *)
(* ===================================================================== *)

Module Demo.

(** The value of a base64 digit, standard or URL-safe alphabet. *)
Definition sextet (c : ascii) : option Z :=
  let n := Z.of_N (N_of_ascii c) in
  if (65 <=? n) && (n <=? 90) then Some (n - 65)
  else if (97 <=? n) && (n <=? 122) then Some (n - 71)
  else if (48 <=? n) && (n <=? 57) then Some (n + 4)
  else if (n =? 43) || (n =? 45) then Some 62
  else if (n =? 47) || (n =? 95) then Some 63
  else None.

(** The digits of the text up to the padding; other characters are
    skipped. *)
Fixpoint sextets (s : string) : list Z :=
  match s with
  | EmptyString => []
  | String c rest =>
      if Ascii.eqb c "=" then []
      else match sextet c with
           | Some v => v :: sextets rest
           | None => sextets rest
           end
  end.

Fixpoint octets (l : list Z) : list Z :=
  match l with
  | a :: b :: c :: d :: rest =>
      (a * 4 + b / 16) :: ((b mod 16) * 16 + c / 4) :: ((c mod 4) * 64 + d)
        :: octets rest
  | [a; b; c] => [a * 4 + b / 16; (b mod 16) * 16 + c / 4]
  | [a; b] => [a * 4 + b / 16]
  | _ => []
  end.

(** An ASCII reading of bytes: the high bit is dropped. *)
Definition ascii_text (bytes : list Z) : string :=
  string_of_list_ascii
    (List.map (fun b => ascii_of_N (Z.to_N (b mod 128))) bytes).

Definition decode_base64 (s : string) : string :=
  ascii_text (octets (sextets s)).

(** A keyed tag in place of HMAC-SHA256: enough to tell secrets and
    expiry times apart. *)
Definition tag (secret : string) (claims : Jwt.Payload) : string :=
  secret ++ "."
    ++ string_of_list_ascii
         (List.map (fun d => ascii_of_N (Z.to_N (48 + d)))
            [Jwt.exp claims / 1000 mod 10; Jwt.exp claims / 100 mod 10;
             Jwt.exp claims / 10 mod 10; Jwt.exp claims mod 10]).

(** Decimal integers, anything else being [NaN]. *)
Definition decimal (s : string) : Js.Num :=
  match Jwt.leading_digits 0 s with
  | (v, EmptyString) => Js.Int v
  | _ => Js.NaN
  end.

Definition platform : Platform :=
  {| base64_ascii := decode_base64; hs256 := tag; toNumber := decimal |}.

Definition auth : Config :=
  {| secret_key := "s3cr3t"; password := "secret"; username := "admin" |}.

(** A configuration whose password contains a colon. *)
Definition auth_colon : Config :=
  {| secret_key := "s3cr3t"; password := "pa:ss"; username := "admin" |}.

Definition userAllowedKeys : list string := ["role"; "email"; "name"].

(** One faculty with three courses; the second stores its program as
    text. *)
Definition course (id : string) (programId : Firestore.FieldValue)
    : Firestore.Item :=
  {| Firestore.item_id := id;
     Firestore.item_data := <["programId" := programId]> ∅ |}.

Definition courses : list Firestore.Item :=
  [ course "c1" (Firestore.FNumber (Js.Int 3));
    course "c2" (Firestore.FString "3");
    course "c3" (Firestore.FNumber (Js.Int 4)) ].

Definition campus : Firestore.Faculties :=
  <["F1" := <["courses" := courses]> ∅]> ∅.

(** An environment at clock reading [t] with an empty [users]
    collection and an untouched response. *)
Definition env (t : Z) : Env :=
  {| now := t; users := ∅; faculties := campus;
     response := Http.fresh; trace := [] |}.

(** A request with nothing in it but the method. *)
Definition request (m : string) : Http.Request :=
  {| Http.method := m; Http.authorization := None;
     Http.body_uid := Js.Undefined; Http.query := ∅;
     Http.token := Jwt.Absent |}.

(** A [POST] with a Basic header and a [uid] in the body. *)
Definition post (header : string) (uid : Js.Value) : Http.Request :=
  {| Http.method := "POST"; Http.authorization := Some header;
     Http.body_uid := uid; Http.query := ∅; Http.token := Jwt.Absent |}.

(** A [GET] with the given query parameters and token. *)
Definition get (q : list (string * string)) (tok : Jwt.Presented)
    : Http.Request :=
  {| Http.method := "GET"; Http.authorization := None;
     Http.body_uid := Js.Undefined; Http.query := list_to_map q;
     Http.token := tok |}.

End Demo.

(* ===================================================================== *)
(** * Sequences of calls to the user service                              *)
(* ===================================================================== *)

Module UserOps.

Import Firestore UserService.

(** One call to the user service. *)
Inductive Op :=
| Save (uid : string)
| Get (uid : string)
| Update (uid : string) (updates : Doc)
| Delete (uid : string)
| Verify (uid : string) (email : Js.Value).

Section Run.

Variable userAllowedKeys : list string.
Variable isValidEmail : Js.Value -> bool.

(** The environment a call leaves behind, whether it returns or
    throws. *)
Definition step (op : Op) (e : Env) : Env :=
  match op with
  | Save uid => snd (saveUser uid e)
  | Get uid => snd (getUserById uid e)
  | Update uid updates => snd (updateUser userAllowedKeys uid updates e)
  | Delete uid => snd (deleteUser uid e)
  | Verify uid email => snd (verifyUser isValidEmail uid email e)
  end.

(** The calls one after the other. *)
Definition run (ops : list Op) (e : Env) : Env :=
  fold_left (fun e op => step op e) ops e.

End Run.

(** Every stored profile has a [uid] and a [role] field. *)
Definition complete (us : Users) : Prop :=
  forall id profile, us !! id = Some profile ->
    is_Some (profile !! "uid") /\ is_Some (profile !! "role").

(** The [uid] field of every stored profile is the id it is stored
    under. *)
Definition keyed (us : Users) : Prop :=
  forall id profile, us !! id = Some profile ->
    profile !! "uid" = Some (FString id).

End UserOps.

(* ===================================================================== *)
(** * The course handlers side by side                                    *)
(* ===================================================================== *)

Module Endpoints.

Import Http Courses.

(** What tells one protected handler from another: the query parameters
    it requires, the prefix of its failure message, the repository
    function it awaits and the call it makes to it. *)
Record Endpoint := {
  required : list string;
  prefix : string;
  callee : string;
  data : Services -> Platform -> Request -> M Data;
  handler : Services -> Platform -> Request -> M unit
}.

Definition endpoints : list Endpoint :=
  [ {| required := ["facultyId"; "courseId"];
       prefix := "Failed to find course: ";
       callee := "getItemByFacultyAndCollectionAndItemId";
       data := fun svc _ request =>
         let* result :=
           getItemByFacultyAndCollectionAndItemId svc
             (Js.the (query request !! "facultyId")) "courses"
             (Js.the (query request !! "courseId")) in
         ret (One result);
       handler := fun svc _ => getOneById svc |};
    {| required := ["facultyId"];
       prefix := "Failed to find courses for faculty: ";
       callee := "getAllFacultyCollectionItems";
       data := fun svc _ request =>
         let* result :=
           getAllFacultyCollectionItems svc
             (Js.the (query request !! "facultyId")) "courses" in
         ret (Many result);
       handler := fun svc _ => getAllForFaculty svc |};
    {| required := ["facultyId"; "programId"];
       prefix := "Failed to find courses: ";
       callee := "getItemByFacultyAndCollectionAndFilterById";
       data := fun svc rt request =>
         let* result :=
           getItemByFacultyAndCollectionAndFilterById svc
             (Js.the (query request !! "facultyId")) "courses" "programId"
             (toNumber rt (Js.the (query request !! "programId"))) in
         ret (Many result);
       handler := getAllForProgram |};
    {| required := ["facultyId"; "branchId"];
       prefix := "Failed to find courses: ";
       callee := "getItemByFacultyAndCollectionAndFilterById";
       data := fun svc rt request =>
         let* result :=
           getItemByFacultyAndCollectionAndFilterById svc
             (Js.the (query request !! "facultyId")) "courses" "branchId"
             (toNumber rt (Js.the (query request !! "branchId"))) in
         ret (Many result);
       handler := getAllForBranch |} ].

(** The environment in which a handler awaits [checkJwt]. *)
Definition at_check (e : Env) : Env :=
  with_event (Called "checkJwt")
    (with_response (set "Access-Control-Allow-Origin" "*") e).

(** The status and text with which the [catch] block answers. *)
Definition failure (prefix : string) (error : Thrown) : Z * string :=
  if is_str error "TokenExpired" then (401, "Token has expired")
  else if is_str error "Unauthorized" then (401, "Unauthorized")
  else (500, prefix ++ message error).

End Endpoints.

(* ===================================================================== *)
(** * Components/Hooks/useBranches                                        *)
(* ===================================================================== *)

Module Branches.

Import Firestore.

(** The store as the browser reaches it: its documents, and the message
    of the error a query is rejected with while it cannot be reached. *)
Record Backend := {
  documents : Faculties;
  failing : option string
}.

(** [string | number], the type of [programId]. *)
Inductive StrOrNum :=
| OfStr (s : string)
| OfNum (n : Js.Num).

Definition truthy (v : StrOrNum) : bool :=
  match v with
  | OfStr s => Js.truthy (Js.Str s)
  | OfNum n => Js.truthy (Js.Number n)
  end.

(** [Number(v)] on a string or a number. *)
Definition Number (rt : Platform) (v : StrOrNum) : Js.Num :=
  match v with
  | OfStr s => toNumber rt s
  | OfNum n => n
  end.

(** [Number(v)] on a number or [null]. *)
Definition NumberOrNull (v : option Js.Num) : Js.Num :=
  match v with
  | Some n => n
  | None => Js.Int 0
  end.

(** The state of the hook: [branches], [loading], [error]. *)
Record State := {
  branches : list Doc;
  loading : bool;
  error : option string
}.

(** [useState<any[]>([])], [useState(true)], [useState(null)] *)
Definition initial : State :=
  {| branches := []; loading := true; error := None |}.

Definition setBranches (v : list Doc) (s : State) : State :=
  {| branches := v; loading := loading s; error := error s |}.

Definition setLoading (v : bool) (s : State) : State :=
  {| branches := branches s; loading := v; error := error s |}.

Definition setError (v : option string) (s : State) : State :=
  {| branches := branches s; loading := loading s; error := v |}.

(** [({ id: doc.id, ...doc.data() })]: the fields spread last win. *)
Definition listed (doc : Item) : Doc :=
  item_data doc ∪ <["id" := FString (item_id doc)]> ∅.

(** [branchesRef.get()] for the two [where] clauses on the [branches]
    of a faculty: the matching documents, or the error's message. *)
Definition get (backend : Backend) (facultyId : string)
    (programId year : Js.Num) : string + list Item :=
  match failing backend with
  | Some message => inl message
  | None =>
      inr (where_eq "year" (FNumber year)
             (where_eq "programId" (FNumber programId)
                (collection (documents backend) facultyId "branches")))
  end.

Section Hook.

Context (rt : Platform) (backend : Backend).

(** One run of [fetchBranches], from the state it starts in to the
    state it leaves when its promise settles. *)
Definition fetchBranches (facultyId : string) (programId : StrOrNum)
    (selectedYear : option Js.Num) (s : State) : State :=
  if Js.truthy_str (Some facultyId) && truthy programId
     && bool_decide (selectedYear <> None) then
    let s := setLoading true s in
    let s := setError None s in
    let s :=
      match get backend facultyId (Number rt programId)
              (NumberOrNull selectedYear) with
      | inr docs => setBranches (List.map listed docs) s
      | inl message => setError (Some message) s
      end in
    setLoading false s
  else
    let s := setBranches [] s in
    setLoading false s.

End Hook.

End Branches.

(* ===================================================================== *)
(** * The timetable page                                                  *)
(* ===================================================================== *)

Module Timetable.

Record ExtendedProps := {
  type : string;
  groups : string;
  teacher : string;
  location : string;
  editable : bool
}.

Record Event := {
  id : string;
  title : string;
  start : string;
  (** the field [end] *)
  finish : string;
  extendedProps : ExtendedProps
}.

Inductive Mode := View | Edit | Add.

Record Props := {
  isAuthenticated : bool;
  uid : option string
}.

(** The state of the [Timetable] component. *)
Record State := {
  events : list Event;
  selectedEvent : option Event;
  open : bool;
  mode : Mode;
  selectedFacultyId : string;
  programId : option string;
  programDuration : option Js.Num;
  selectedYear : option Js.Num
}.

Definition initial : State :=
  {| events := []; selectedEvent := None; open := false; mode := Add;
     selectedFacultyId := EmptyString; programId := None;
     programDuration := None; selectedYear := None |}.

Definition setEvents (v : list Event) (s : State) : State :=
  {| events := v; selectedEvent := selectedEvent s; open := open s;
     mode := mode s; selectedFacultyId := selectedFacultyId s;
     programId := programId s; programDuration := programDuration s;
     selectedYear := selectedYear s |}.

Definition setSelectedEvent (v : option Event) (s : State) : State :=
  {| events := events s; selectedEvent := v; open := open s;
     mode := mode s; selectedFacultyId := selectedFacultyId s;
     programId := programId s; programDuration := programDuration s;
     selectedYear := selectedYear s |}.

Definition setOpen (v : bool) (s : State) : State :=
  {| events := events s; selectedEvent := selectedEvent s; open := v;
     mode := mode s; selectedFacultyId := selectedFacultyId s;
     programId := programId s; programDuration := programDuration s;
     selectedYear := selectedYear s |}.

Definition setMode (v : Mode) (s : State) : State :=
  {| events := events s; selectedEvent := selectedEvent s; open := open s;
     mode := v; selectedFacultyId := selectedFacultyId s;
     programId := programId s; programDuration := programDuration s;
     selectedYear := selectedYear s |}.

Definition setSelectedFacultyId (v : string) (s : State) : State :=
  {| events := events s; selectedEvent := selectedEvent s; open := open s;
     mode := mode s; selectedFacultyId := v;
     programId := programId s; programDuration := programDuration s;
     selectedYear := selectedYear s |}.

Definition setProgramId (v : option string) (s : State) : State :=
  {| events := events s; selectedEvent := selectedEvent s; open := open s;
     mode := mode s; selectedFacultyId := selectedFacultyId s;
     programId := v; programDuration := programDuration s;
     selectedYear := selectedYear s |}.

Definition setProgramDuration (v : option Js.Num) (s : State) : State :=
  {| events := events s; selectedEvent := selectedEvent s; open := open s;
     mode := mode s; selectedFacultyId := selectedFacultyId s;
     programId := programId s; programDuration := v;
     selectedYear := selectedYear s |}.

Definition setSelectedYear (v : option Js.Num) (s : State) : State :=
  {| events := events s; selectedEvent := selectedEvent s; open := open s;
     mode := mode s; selectedFacultyId := selectedFacultyId s;
     programId := programId s; programDuration := programDuration s;
     selectedYear := v |}.

(** How a [fetch] ends: rejected, or answered with [response.ok] and a
    body that does or does not parse as JSON. *)
Inductive Reply (A : Type) :=
| Rejected
| Answered (ok : bool) (json : option A).
Arguments Rejected {A}.
Arguments Answered {A} ok json.

(** [fetchEvents], once the request for the events has ended. *)
Definition fetchEvents (reply : Reply (list Event)) (s : State) : State :=
  match reply with
  | Answered true (Some data) => setEvents data s
  | _ => s
  end.

(** [handleEventClick]; the second component is the text of the alert
    it raises, if any. *)
Definition handleEventClick (clicked : string) (s : State)
    : State * option string :=
  match List.find (fun event => String.eqb (id event) clicked) (events s) with
  | Some event =>
      let s := setSelectedEvent (Some event) s in
      let s := setMode (if editable (extendedProps event) then Edit else View)
                 s in
      (setOpen true s, None)
  | None => (s, Some "Event not found. Please try again.")
  end.

Definition handleCloseModal (s : State) : State :=
  setOpen false (setSelectedEvent None s).

Definition handleDateSelect (props : Props) (s : State) : State :=
  if isAuthenticated props then setOpen true (setMode Add s) else s.

(** [handleAddEvent], once the request has ended. *)
Definition handleAddEvent (reply : Reply unit) (s : State) : State :=
  match reply with
  | Answered true (Some _) => setOpen false s
  | _ => s
  end.

(** [onSelectProgram] as the page passes it to the program menu. *)
Definition onSelectProgram (programId : string)
    (programDuration : option Js.Num) (s : State) : State :=
  setProgramDuration programDuration (setProgramId (Some programId) s).

(** Everything that changes the state of the page. *)
Inductive Action :=
| EventsFetched (reply : Reply (list Event))
| EventClick (clicked : string)
| CloseModal
| DateSelect
| EventSaved (reply : Reply unit)
| SelectFaculty (facultyId : string)
| SelectProgram (programId : string) (programDuration : option Js.Num)
| SelectYear (year : option Js.Num).

Definition step (props : Props) (a : Action) (s : State) : State :=
  match a with
  | EventsFetched reply => fetchEvents reply s
  | EventClick clicked => fst (handleEventClick clicked s)
  | CloseModal => handleCloseModal s
  | DateSelect => handleDateSelect props s
  | EventSaved reply => handleAddEvent reply s
  | SelectFaculty facultyId => setSelectedFacultyId facultyId s
  | SelectProgram programId programDuration =>
      onSelectProgram programId programDuration s
  | SelectYear year => setSelectedYear year s
  end.

Definition run (props : Props) (actions : list Action) (s : State) : State :=
  fold_left (fun s a => step props a s) actions s.

(** The mode the modal takes for an event. *)
Definition mode_of (event : Event) : Mode :=
  if editable (extendedProps event) then Edit else View.

(** What is to hold of the modal in every state the page reaches:
    open in view or edit mode it shows a selected event, in the mode
    that event calls for; and it is not open in add mode for a visitor
    who is not authenticated. *)
Definition modal_ok (props : Props) (s : State) : Prop :=
  (open s = true -> mode s <> Add ->
     exists event, selectedEvent s = Some event /\ mode s = mode_of event)
  /\ (isAuthenticated props = false -> open s = true -> mode s <> Add).

End Timetable.

(* ===================================================================== *)
(** * The menus of the timetable page                                     *)
(* ===================================================================== *)

Module Menus.







End Menus.

(* ===================================================================== *)
(** * A concrete page, for the examples                                   *)
(* ===================================================================== *)

Module DemoPage.

Definition branch (id : string) (programId year : Firestore.FieldValue)
    : Firestore.Item :=
  {| Firestore.item_id := id;
     Firestore.item_data :=
       <["programId" := programId]> (<["year" := year]> ∅) |}.

(** Three branches of faculty F1; the last stores its program as text. *)
Definition store : Firestore.Faculties :=
  <["F1" := <["branches" :=
      [ branch "b1" (Firestore.FNumber (Js.Int 3))
                    (Firestore.FNumber (Js.Int 1));
        branch "b2" (Firestore.FNumber (Js.Int 3))
                    (Firestore.FNumber (Js.Int 2));
        branch "b3" (Firestore.FString "3")
                    (Firestore.FNumber (Js.Int 1)) ]]> ∅]> ∅.

Definition online : Branches.Backend :=
  {| Branches.documents := store; Branches.failing := None |}.

Definition offline : Branches.Backend :=
  {| Branches.documents := store;
     Branches.failing := Some "Failed to get documents" |}.


Definition lecture (id : string) (editable : bool) : Timetable.Event :=
  {| Timetable.id := id; Timetable.title := "Statistika";
     Timetable.start := "2024-05-15T07:00:00";
     Timetable.finish := "2024-05-15T10:00:00";
     Timetable.extendedProps :=
       {| Timetable.type := "Vaje"; Timetable.groups := "RV1";
          Timetable.teacher := "Jana Novak"; Timetable.location := "Gama";
          Timetable.editable := editable |} |}.

Definition visitor : Timetable.Props :=
  {| Timetable.isAuthenticated := false; Timetable.uid := None |}.

End DemoPage.

(* ===================================================================== *)
(** * Sanity checks of the primitives                                     *)
(* ===================================================================== *)

Example demo_decode : Demo.decode_base64 "YWRtaW46c2VjcmV0" = "admin:secret".
Proof. reflexivity. Qed.

Example demo_decode_colon : Demo.decode_base64 "YWRtaW46cGE6c3M=" = "admin:pa:ss".
Proof. reflexivity. Qed.

Example demo_split : Js.split ":" "admin:pa:ss" = ["admin"; "pa"; "ss"].
Proof. reflexivity. Qed.

Example demo_split_empty : Js.split ":" EmptyString = [EmptyString].
Proof. reflexivity. Qed.

Example demo_ms : Jwt.ms "1h" = Some 3600000.
Proof. reflexivity. Qed.

(* ===================================================================== *)
(** * Properties of the user profile service                              *)
(* ===================================================================== *)

Section UserServiceProperties.

Import Firestore UserService.



Lemma saveUser_fresh (uid : string) (e : Env) :
  users e !! uid = None ->
  saveUser uid e =
    (Returned false,
     with_event (Wrote (WSet uid (newProfile uid)))
       (with_users (insert uid (newProfile uid)) e)).
Proof.
  intros Hnone. unfold saveUser, bind, users_get, users_set, ret.
  rewrite Hnone. reflexivity.
Qed.

Lemma saveUser_known (uid : string) (e : Env) :
  is_Some (users e !! uid) -> saveUser uid e = (Returned true, e).
Proof.
  intros [profile Hsome]. unfold saveUser, bind, users_get, ret.
  rewrite Hsome. reflexivity.
Qed.



(** The filtered updates hold exactly the allow-listed entries. *)
Lemma filterForAllowedKeys_lookup (updates : Doc) (allowed : list string)
    (k : string) :
  filterForAllowedKeys updates allowed !! k =
    if bool_decide (k ∈ allowed) then updates !! k else None.
Proof.
  unfold filterForAllowedKeys. case_bool_decide as Hk.
  - destruct (updates !! k) as [v|] eqn:Hv.
    + apply map_lookup_filter_Some. auto.
    + apply map_lookup_filter_None. left. exact Hv.
  - apply map_lookup_filter_None. right. intros v _. exact Hk.
Qed.

Lemma updateUser_missing (allowed : list string) (uid : string)
    (updates : Doc) (e : Env) :
  users e !! uid = None ->
  updateUser allowed uid updates e =
    (Threw (ThrowError ("No user found with ID: " ++ uid)), e).
Proof.
  intros Hnone. unfold updateUser, bind, users_get, throw.
  rewrite Hnone. reflexivity.
Qed.

Lemma updateUser_found (allowed : list string) (uid : string)
    (updates old : Doc) (e : Env) :
  users e !! uid = Some old ->
  updateUser allowed uid updates e =
    (Returned ("User document with ID: " ++ uid ++ " updated successfully."),
     with_event (Wrote (WUpdate uid (filterForAllowedKeys updates allowed)))
       (with_users
          (insert uid (filterForAllowedKeys updates allowed ∪ old)) e)).
Proof.
  intros Hsome. unfold updateUser, bind, users_get, users_update, ret.
  rewrite Hsome. cbn. rewrite Hsome. reflexivity.
Qed.



End UserServiceProperties.

(* ===================================================================== *)
(** * Further properties of the user profile service                      *)
(* ===================================================================== *)

Section UserServiceCalls.

Import Firestore UserService.

Lemma getUserById_cases (uid : string) (e : Env) :
  getUserById uid e =
    (match users e !! uid with
     | Some profile => Returned profile
     | None => Threw (ThrowError ("User with uid " ++ uid ++ " not found"))
     end, e).
Proof.
  unfold getUserById, bind, users_get.
  destruct (users e !! uid); reflexivity.
Qed.

Lemma deleteUser_cases (uid : string) (e : Env) :
  deleteUser uid e =
    match users e !! uid with
    | Some _ =>
        (Returned "User deleted successfully",
         with_event (Wrote (WDelete uid)) (with_users (delete uid) e))
    | None => (Threw (ThrowError ("No user found with ID: " ++ uid)), e)
    end.
Proof.
  unfold deleteUser, bind, users_get, users_delete.
  destruct (users e !! uid); reflexivity.
Qed.





(** Deleting a profile and saving the user again starts over: the call
    answers [false] and the stored profile is the default one, whatever
    the deleted profile held. *)
Theorem saveUser_after_deleteUser (uid : string) (e : Env) :
  is_Some (users e !! uid) ->
  let e1 := snd (deleteUser uid e) in
  fst (saveUser uid e1) = Returned false
  /\ users (snd (saveUser uid e1)) !! uid = Some (newProfile uid).
Proof.
  intros [profile Hstored]. cbv zeta.
  rewrite (deleteUser_cases uid e), Hstored. cbn [snd].
  assert (Hgone : users (with_event (Wrote (WDelete uid))
                           (with_users (delete uid) e)) !! uid = None).
  { cbn. apply lookup_delete_eq. }
  rewrite (saveUser_fresh uid _ Hgone). cbn [fst snd].
  split; [reflexivity |]. cbn. apply lookup_insert_eq.
Qed.

Lemma saveUser_after_deleteUser_witness :
  let updates : Doc := <["role" := FString "Admin"]> ∅ in
  let e0 := snd (updateUser Demo.userAllowedKeys "u1" updates
                   (snd (saveUser "u1" (Demo.env 0)))) in
  (users e0 !! "u1") ≫= (.!! "role") = Some (FString "Admin")
  /\ (users (snd (saveUser "u1" (snd (deleteUser "u1" e0)))) !! "u1")
       ≫= (.!! "role") = Some (FString "Student").
Proof.
  intros updates e0. split; [reflexivity |].
  destruct (saveUser_after_deleteUser "u1" e0
              ltac:(eexists; reflexivity)) as [_ Hprofile].
  rewrite Hprofile. reflexivity.
Defined.

(** Applying the same update a second time changes no profile, and
    an update never adds or removes a user. *)
Theorem updateUser_twice (allowed : list string) (uid : string)
    (updates : Doc) (e : Env) :
  let e1 := snd (updateUser allowed uid updates e) in
  let e2 := snd (updateUser allowed uid updates e1) in
  users e2 = users e1
  /\ fst (updateUser allowed uid updates e1)
     = fst (updateUser allowed uid updates e)
  /\ dom (users e1) = dom (users e).
Proof.
  cbv zeta. destruct (users e !! uid) as [old |] eqn:Hstored.
  - rewrite (updateUser_found allowed uid updates old e Hstored).
    cbn [snd fst].
    set (merged := filterForAllowedKeys updates allowed ∪ old).
    assert (Hmerged : users (with_event
                (Wrote (WUpdate uid (filterForAllowedKeys updates allowed)))
                (with_users (insert uid merged) e)) !! uid = Some merged).
    { cbn. apply lookup_insert_eq. }
    rewrite (updateUser_found allowed uid updates merged _ Hmerged).
    cbn [snd fst]. split; [| split; [reflexivity |]].
    + cbn. rewrite insert_insert_eq. f_equal. unfold merged.
      rewrite (assoc_L (∪)). f_equal. apply (idemp_L (∪)).
    + cbn. apply set_eq. intros k. rewrite !elem_of_dom.
      destruct (decide (k = uid)) as [-> | Hne].
      * rewrite lookup_insert_eq, Hstored. split; eauto.
      * now rewrite lookup_insert_ne by congruence.
  - rewrite (updateUser_missing allowed uid updates e Hstored). cbn [snd fst].
    rewrite (updateUser_missing allowed uid updates e Hstored). auto.
Qed.

Lemma verifyUser_env (isValidEmail : Js.Value -> bool) (uid : string)
    (email : Js.Value) (e : Env) :
  snd (verifyUser isValidEmail uid email e) = e.
Proof.
  unfold verifyUser, bind, users_get.
  destruct (users e !! uid); cbn; [| reflexivity].
  now destruct (isValidEmail email).
Qed.



End UserServiceCalls.

Section UserServiceInvariants.

Import Firestore UserService UserOps.

Context (allowed : list string) (isValidEmail : Js.Value -> bool).

(** The profiles after one call, by cases on the call. *)
Lemma step_users (op : Op) (e : Env) :
  users (step allowed isValidEmail op e) =
    match op with
    | Save uid =>
        match users e !! uid with
        | Some _ => users e
        | None => <[uid := newProfile uid]> (users e)
        end
    | Update uid updates =>
        match users e !! uid with
        | Some old =>
            <[uid := filterForAllowedKeys updates allowed ∪ old]> (users e)
        | None => users e
        end
    | Delete uid => delete uid (users e)
    | Get _ | Verify _ _ => users e
    end.
Proof.
  destruct op as [uid | uid | uid updates | uid | uid email]; cbn [step].
  - destruct (users e !! uid) as [profile |] eqn:Hstored.
    + now rewrite (saveUser_known uid e) by eauto.
    + now rewrite (saveUser_fresh uid e Hstored).
  - now rewrite getUserById_cases.
  - destruct (users e !! uid) as [old |] eqn:Hstored.
    + now rewrite (updateUser_found allowed uid updates old e Hstored).
    + now rewrite (updateUser_missing allowed uid updates e Hstored).
  - rewrite deleteUser_cases.
    destruct (users e !! uid) as [profile |] eqn:Hstored; [reflexivity |].
    cbn [snd]. symmetry. now apply delete_id.
  - now rewrite verifyUser_env.
Qed.

Lemma step_complete (op : Op) (e : Env) :
  complete (users e) -> complete (users (step allowed isValidEmail op e)).
Proof.
  intros Hinv id profile. rewrite step_users.
  destruct op as [uid | uid | uid updates | uid | uid email];
    try apply Hinv.
  - destruct (users e !! uid) eqn:Hstored; [apply Hinv |].
    intros [[<- <-] | [_ Hother]]%lookup_insert_Some; [| eauto].
    split; eexists; reflexivity.
  - destruct (users e !! uid) as [old |] eqn:Hstored; [| apply Hinv].
    intros [[<- <-] | [_ Hother]]%lookup_insert_Some; [| eauto].
    destruct (Hinv uid old Hstored) as [Huid Hrole].
    split; apply lookup_union_is_Some; now right.
  - intros [_ Hother]%lookup_delete_Some. eauto.
Qed.

Lemma step_keyed (op : Op) (e : Env) :
  "uid" ∉ allowed ->
  keyed (users e) -> keyed (users (step allowed isValidEmail op e)).
Proof.
  intros Hfixed Hinv id profile. rewrite step_users.
  destruct op as [uid | uid | uid updates | uid | uid email];
    try apply Hinv.
  - destruct (users e !! uid) eqn:Hstored; [apply Hinv |].
    intros [[<- <-] | [_ Hother]]%lookup_insert_Some; [| eauto].
    reflexivity.
  - destruct (users e !! uid) as [old |] eqn:Hstored; [| apply Hinv].
    intros [[<- <-] | [_ Hother]]%lookup_insert_Some; [| eauto].
    rewrite lookup_union_r; [eauto |].
    rewrite filterForAllowedKeys_lookup.
    case_bool_decide; [contradiction | reflexivity].
  - intros [_ Hother]%lookup_delete_Some. eauto.
Qed.

(** Whatever calls are made to the user service, in whatever order and
    whether they succeed or fail, every stored profile keeps a [uid] and
    a [role] field: no call removes a field of a profile. *)
Theorem profiles_keep_uid_and_role (ops : list Op) (e : Env) :
  complete (users e) ->
  complete (users (run allowed isValidEmail ops e)).
Proof.
  revert e. induction ops as [| op ops IH]; intros e Hcomplete.
  - exact Hcomplete.
  - cbn [run fold_left]. apply IH. now apply step_complete.
Qed.

(** When [uid] is not among the allow-listed keys, whatever calls are
    made to the user service, the [uid] field of every stored profile
    stays the id the profile is stored under. *)
Theorem profiles_stay_keyed (ops : list Op) (e : Env) :
  "uid" ∉ allowed ->
  keyed (users e) ->
  keyed (users (run allowed isValidEmail ops e)).
Proof.
  intros Hfixed. revert e.
  induction ops as [| op ops IH]; intros e Hkeyed.
  - exact Hkeyed.
  - cbn [run fold_left]. apply IH. now apply step_keyed.
Qed.

End UserServiceInvariants.

Lemma profiles_keep_uid_and_role_witness :
  let ops :=
    [ UserOps.Save "u1";
      UserOps.Update "u1" (<["role" := Firestore.FString "Admin"]> ∅);
      UserOps.Delete "u2";
      UserOps.Save "u2";
      UserOps.Verify "u2" (Js.Str "x") ] in
  UserOps.complete
    (users (UserOps.run Demo.userAllowedKeys (fun _ => false) ops
              (Demo.env 0))).
Proof.
  intros ops.
  apply (profiles_keep_uid_and_role Demo.userAllowedKeys (fun _ => false)
           ops (Demo.env 0)).
  intros id profile Hstored. cbn in Hstored.
  rewrite lookup_empty in Hstored. discriminate.
Defined.

Lemma profiles_stay_keyed_witness :
  let ops :=
    [ UserOps.Save "u1";
      UserOps.Update "u1"
        (<["uid" := Firestore.FString "intruder"]>
           (<["role" := Firestore.FString "Admin"]> ∅));
      UserOps.Get "u1" ] in
  UserOps.keyed
    (users (UserOps.run Demo.userAllowedKeys (fun _ => false) ops
              (Demo.env 0))).
Proof.
  intros ops.
  apply (profiles_stay_keyed Demo.userAllowedKeys (fun _ => false)
           ops (Demo.env 0)); [compute_done |].
  intros id profile Hstored. cbn in Hstored.
  rewrite lookup_empty in Hstored. discriminate.
Defined.

(* ===================================================================== *)
(** * Properties of string splitting                                      *)
(* ===================================================================== *)

Section SplitProperties.

Variable sep : ascii.

Lemma split_cons (s : string) : exists seg segs, Js.split sep s = seg :: segs.
Proof.
  induction s as [| c rest IH]; cbn; [eauto |].
  destruct (Ascii.eqb c sep); [eauto |].
  destruct IH as (seg & segs & ->). eauto.
Qed.

(** No segment of a split contains the separator. *)
Lemma split_no_sep (s seg : string) :
  In seg (Js.split sep s) -> Js.contains sep seg = false.
Proof.
  revert seg. induction s as [| c rest IH]; cbn; intros seg Hin.
  - destruct Hin as [<- | []]. reflexivity.
  - destruct (Ascii.eqb c sep) eqn:Hc.
    + destruct Hin as [<- | Hin]; [reflexivity | auto].
    + destruct (split_cons rest) as (hd & tl & Hsplit).
      rewrite Hsplit in Hin, IH.
      destruct Hin as [<- | Hin].
      * cbn. rewrite Hc. apply IH. now left.
      * apply IH. now right.
Qed.

(** A text without the separator is its own single segment. *)
Lemma split_whole (s : string) :
  Js.contains sep s = false -> Js.split sep s = [s].
Proof.
  induction s as [| c rest IH]; cbn; [reflexivity |].
  intros Hc. apply orb_false_iff in Hc as [Hc Hrest].
  rewrite Hc, (IH Hrest). reflexivity.
Qed.

(** The first segment ends at the first separator. *)
Lemma split_app (p rest : string) :
  Js.contains sep p = false ->
  Js.split sep (p ++ String sep rest) = p :: Js.split sep rest.
Proof.
  induction p as [| c p IH]; simpl.
  - intros _. now rewrite Ascii.eqb_refl.
  - intros Hc. apply orb_false_iff in Hc as [Hc Hp].
    rewrite Hc, (IH Hp). reflexivity.
Qed.

End SplitProperties.

Lemma prefix_append (p s : string) :
  String.prefix p s = true -> exists rest, s = p ++ rest.
Proof.
  revert s. induction p as [| a p IH]; intros s.
  - intros _. now exists s.
  - destruct s as [| b s]; simpl; [discriminate |].
    destruct (ascii_dec a b) as [Hab | Hab]; [| discriminate].
    intros Hp. destruct (IH s Hp) as [rest Hrest].
    exists rest. now rewrite Hab, Hrest.
Qed.

Lemma prefix_of_append (p rest : string) : String.prefix p (p ++ rest) = true.
Proof.
  induction p as [| a p IH]; simpl.
  - now destruct rest.
  - destruct (ascii_dec a a); [exact IH | contradiction].
Qed.

Lemma strict_eq_Some (a : option string) (b : string) :
  Js.strict_eq a b = true <-> a = Some b.
Proof.
  destruct a as [s |]; cbn.
  - rewrite String.eqb_eq. split; congruence.
  - split; discriminate.
Qed.

(* ===================================================================== *)
(** * Properties of the login handler                                     *)
(* ===================================================================== *)

Section LoginProperties.

Import Http Login.

Context (auth : Config) (rt : Platform).

(** A header that starts with "Basic " has a second space-separated
    segment: the handler never decodes [undefined]. *)
Lemma basic_has_payload (h : string) :
  Js.startsWith h "Basic " = true ->
  exists b, Js.index (Js.split " " h) 1 = Some b.
Proof.
  intros Hp. apply prefix_append in Hp as [rest ->].
  change ("Basic " ++ rest) with ("Basic" ++ String " " rest).
  rewrite split_app by reflexivity.
  destruct (split_cons " " rest) as (seg & segs & ->). now exists seg.
Qed.

(** The handler by cases. *)
Lemma login_cases (request : Request) (e : Env) :
  login auth rt request e =
    if negb (String.eqb (method request) "POST") then
      (Returned tt, answered 405 (Text "Method Not Allowed") e)
    else if negb (authenticated auth rt request) then
      (Returned tt, answered 401 (Text "Unauthorized") e)
    else if negb (Js.truthy (body_uid request)) then
      (Returned tt, answered 400 (Text "Incomplete request") e)
    else (Returned tt, logged_in auth rt (body_uid request) e).
Proof.
  unfold login, authenticated, credentials.
  destruct (String.eqb (method request) "POST"); [| reflexivity].
  cbn [negb].
  destruct (Js.truthy_str (authorization request)) eqn:Hh; [| reflexivity].
  destruct (Js.startsWith (Js.the (authorization request)) "Basic ") eqn:Hb;
    [| reflexivity].
  destruct (basic_has_payload _ Hb) as [b Hidx].
  unfold bind at 1. cbn [respond]. rewrite Hidx. cbn [negb orb andb fmap option_fmap option_map].
  destruct (credentials_match auth (base64_ascii rt b)); [| reflexivity].
  destruct (Js.truthy (body_uid request)); reflexivity.
Qed.

(** The gate opens exactly when the first colon-separated segment of
    the decoded credentials is the configured user name and the second
    the configured password. *)
Lemma authenticated_iff (request : Request) :
  authenticated auth rt request = true <->
  presented_username rt request = Some (username auth)
  /\ presented_password rt request = Some (password auth).
Proof.
  unfold authenticated, presented_username, presented_password.
  destruct (credentials rt request) as [c |].
  - unfold credentials_match, adminUsername, adminPassword.
    rewrite andb_true_iff, !strict_eq_Some. reflexivity.
  - split; [discriminate | intros [? _]; discriminate].
Qed.

(** A password read out of a request never contains a colon. *)
Lemma presented_password_no_colon (request : Request) (p : string) :
  presented_password rt request = Some p -> Js.contains ":" p = false.
Proof.
  unfold presented_password.
  destruct (credentials rt request) as [c |]; [| discriminate].
  intros Hidx. apply (split_no_sep ":" c).
  apply (nth_error_In _ 1). exact Hidx.
Qed.



(** C6: a POST whose user name is wrong and a POST whose password is
    wrong are answered alike: the handler leaves the same environment
    behind in both cases, with status 401 and the body "Unauthorized",
    so nothing in the response tells which field was wrong. *)
Theorem login_rejections_indistinguishable (r1 r2 : Request) (e : Env) :
  method r1 = "POST" ->
  method r2 = "POST" ->
  presented_username rt r1 <> Some (username auth) ->
  presented_password rt r2 <> Some (password auth) ->
  login auth rt r1 e = login auth rt r2 e
  /\ login auth rt r1 e = (Returned tt, answered 401 (Text "Unauthorized") e).
Proof.
  intros Hm1 Hm2 Hu Hp.
  assert (Ha1 : authenticated auth rt r1 = false).
  { apply not_true_is_false. intros Ha. apply authenticated_iff in Ha. tauto. }
  assert (Ha2 : authenticated auth rt r2 = false).
  { apply not_true_is_false. intros Ha. apply authenticated_iff in Ha. tauto. }
  rewrite !login_cases, Hm1, Hm2, Ha1, Ha2. split; reflexivity.
Qed.

(** C9: the handler compares the first colon-separated segment of the
    decoded credentials with the configured user name and the second
    with the configured password, and no segment contains a colon.
    Hence, when the configured password contains a colon, every POST is
    answered 401 "Unauthorized", whatever credentials it presents. *)
Theorem colon_in_password_locks_out :
  (forall request,
     authenticated auth rt request = true <->
     presented_username rt request = Some (username auth)
     /\ presented_password rt request = Some (password auth))
  /\ (forall request p,
        presented_password rt request = Some p -> Js.contains ":" p = false)
  /\ (Js.contains ":" (password auth) = true ->
      forall request e,
        method request = "POST" ->
        authenticated auth rt request = false
        /\ login auth rt request e =
             (Returned tt, answered 401 (Text "Unauthorized") e)).
Proof.
  split; [exact authenticated_iff |].
  split; [exact presented_password_no_colon |].
  intros Hcolon request e Hm.
  assert (Ha : authenticated auth rt request = false).
  { apply not_true_is_false. intros Ha.
    apply authenticated_iff in Ha as [_ Hp].
    apply presented_password_no_colon in Hp. congruence. }
  split; [exact Ha |].
  rewrite login_cases, Hm, Ha. reflexivity.
Qed.

End LoginProperties.


Lemma login_rejections_indistinguishable_witness :
  let wrong_user := Demo.post "Basic cm9vdDpzZWNyZXQ=" (Js.Str "s1") in
  let wrong_pass := Demo.post "Basic YWRtaW46d3Jvbmc=" (Js.Str "s1") in
  Login.login Demo.auth Demo.platform wrong_user (Demo.env 5000)
  = Login.login Demo.auth Demo.platform wrong_pass (Demo.env 5000).
Proof.
  intros wrong_user wrong_pass.
  apply (login_rejections_indistinguishable Demo.auth Demo.platform
           wrong_user wrong_pass (Demo.env 5000)).
  - reflexivity.
  - reflexivity.
  - vm_compute. discriminate.
  - vm_compute. discriminate.
Defined.

Lemma colon_in_password_locks_out_witness :
  Login.login Demo.auth_colon Demo.platform
    (Demo.post "Basic YWRtaW46cGE6c3M=" (Js.Str "s1")) (Demo.env 5000)
  = (Returned tt, answered 401 (Http.Text "Unauthorized") (Demo.env 5000)).
Proof.
  destruct (colon_in_password_locks_out Demo.auth_colon Demo.platform)
    as (_ & _ & Hlocked).
  apply Hlocked; reflexivity.
Defined.

(* ===================================================================== *)
(** * Further properties of the login handler                             *)
(* ===================================================================== *)

Section LoginEdges.

Import Http Login.

Context (auth : Config) (rt : Platform).

(** The handler reads the method, the authorization header and the
    [uid] of the body, and nothing else. *)
Lemma login_reads (request request' : Request) (e : Env) :
  method request' = method request ->
  authorization request' = authorization request ->
  body_uid request' = body_uid request ->
  login auth rt request' e = login auth rt request e.
Proof.
  intros Hm Ha Hu. rewrite !login_cases.
  unfold authenticated, credentials. now rewrite Hm, Ha, Hu.
Qed.

(** [login] works on the response alone: it leaves the clock and the
    store as they are and calls no collaborator; it adds the CORS header
    and no other; and requests that agree on method, authorization
    header and body [uid] are answered alike, whatever query or token
    they carry. *)
Theorem login_touches_only_response (request : Request) (e : Env) :
  let e1 := snd (login auth rt request e) in
  now e1 = now e
  /\ users e1 = users e
  /\ faculties e1 = faculties e
  /\ trace e1 = trace e
  /\ headers (response e1) =
       (headers (response e) ++ [("Access-Control-Allow-Origin", "*")])%list
  /\ forall request',
       method request' = method request ->
       authorization request' = authorization request ->
       body_uid request' = body_uid request ->
       login auth rt request' e = login auth rt request e.
Proof.
  cbv zeta.
  repeat (split; [| try exact (fun request' => login_reads request request' e)]);
    rewrite login_cases;
    destruct (negb (String.eqb (method request) "POST")); try reflexivity;
    destruct (negb (authenticated auth rt request)); try reflexivity;
    destruct (negb (Js.truthy (body_uid request))); reflexivity.
Qed.


Lemma append_empty (s : string) : s ++ EmptyString = s.
Proof.
  induction s as [| c s IH]; [reflexivity |].
  change (String c (s ++ EmptyString) = String c s). now rewrite IH.
Qed.

Lemma credentials_basic (request : Request) (b rest : string) :
  authorization request = Some ("Basic " ++ b ++ rest) ->
  Js.contains " " b = false ->
  rest = EmptyString \/ (exists junk, rest = String " " junk) ->
  credentials rt request = Some (base64_ascii rt b).
Proof.
  intros Hh Hb Hrest. unfold credentials. rewrite Hh.
  change (Js.the (Some ("Basic " ++ b ++ rest)))
    with ("Basic" ++ String " " (b ++ rest)).
  assert (Hpre : Js.startsWith ("Basic" ++ String " " (b ++ rest)) "Basic "
                 = true).
  { exact (prefix_of_append "Basic " (b ++ rest)). }
  rewrite Hpre.
  change (Js.truthy_str (Some ("Basic " ++ b ++ rest))) with true.
  cbn [andb]. rewrite split_app by reflexivity.
  assert (Hsecond : Js.index ("Basic" :: Js.split " " (b ++ rest)) 1 = Some b).
  { destruct Hrest as [-> | [junk ->]].
    - now rewrite append_empty, (split_whole " " b Hb).
    - now rewrite (split_app " " b junk Hb). }
  rewrite Hsecond. reflexivity.
Qed.

(** Only the text between "Basic " and the next space is decoded:
    whatever follows a second space in the header is ignored. *)
Theorem login_ignores_trailing_header_text (request request' : Request)
    (b junk : string) (e : Env) :
  Js.contains " " b = false ->
  authorization request = Some ("Basic " ++ b) ->
  authorization request' = Some ("Basic " ++ b ++ String " " junk) ->
  method request' = method request ->
  body_uid request' = body_uid request ->
  login auth rt request' e = login auth rt request e.
Proof.
  intros Hb Hh Hh' Hm Hu.
  assert (Hc : credentials rt request = Some (base64_ascii rt b)).
  { apply (credentials_basic request b EmptyString); auto.
    now rewrite append_empty. }
  assert (Hc' : credentials rt request' = Some (base64_ascii rt b)).
  { apply (credentials_basic request' b (String " " junk)); eauto. }
  rewrite !login_cases. unfold authenticated. now rewrite Hc, Hc', Hm, Hu.
Qed.

(** Only the first two colon-separated segments of the decoded
    credentials are compared: credentials "u:p:..." pass the gate
    exactly when [u] and [p] are the configured pair, whatever follows
    the second colon. *)
Theorem login_ignores_extra_credential_segments (request : Request)
    (u p rest : string) :
  credentials rt request = Some (u ++ String ":" (p ++ String ":" rest)) ->
  Js.contains ":" u = false ->
  Js.contains ":" p = false ->
  authenticated auth rt request =
    String.eqb u (username auth) && String.eqb p (password auth).
Proof.
  intros Hc Hu Hp. unfold authenticated. rewrite Hc.
  unfold credentials_match. rewrite (split_app ":" u _ Hu).
  rewrite (split_app ":" p rest Hp). reflexivity.
Qed.

Lemma presented_username_no_colon (request : Request) (u : string) :
  presented_username rt request = Some u -> Js.contains ":" u = false.
Proof.
  unfold presented_username.
  destruct (credentials rt request) as [c |]; [| discriminate].
  intros Hidx. apply (split_no_sep ":" c).
  apply (nth_error_In _ 0). exact Hidx.
Qed.

(** A request passes the credential gate only if its decoded
    credentials contain a colon and neither the configured user name
    nor the configured password does. *)
Theorem login_needs_two_segments (request : Request) :
  authenticated auth rt request = true ->
  (exists c, credentials rt request = Some c /\ Js.contains ":" c = true)
  /\ Js.contains ":" (username auth) = false
  /\ Js.contains ":" (password auth) = false.
Proof.
  intros Ha. pose proof Ha as [Hu Hp]%authenticated_iff.
  split; [| split].
  - unfold presented_password in Hp.
    destruct (credentials rt request) as [c |] eqn:Hc; [| discriminate].
    exists c. split; [reflexivity |].
    destruct (Js.contains ":" c) eqn:Hcolon; [reflexivity |].
    change (Js.index (Js.split ":" c) 1 = Some (password auth)) in Hp.
    rewrite (split_whole ":" c Hcolon) in Hp. discriminate.
  - exact (presented_username_no_colon request _ Hu).
  - exact (presented_password_no_colon rt request _ Hp).
Qed.

End LoginEdges.

Lemma login_touches_only_response_witness :
  let request := Demo.post "Basic YWRtaW46c2VjcmV0" (Js.Str "s1") in
  let request' :=
    {| Http.method := "POST";
       Http.authorization := Some "Basic YWRtaW46c2VjcmV0";
       Http.body_uid := Js.Str "s1";
       Http.query := <["facultyId" := "F1"]> ∅;
       Http.token := Jwt.Malformed "x.y.z" |} in
  Login.login Demo.auth Demo.platform request' (Demo.env 5000)
  = Login.login Demo.auth Demo.platform request (Demo.env 5000).
Proof.
  intros request request'.
  destruct (login_touches_only_response Demo.auth Demo.platform request
              (Demo.env 5000)) as (_ & _ & _ & _ & _ & Hreads).
  apply Hreads; reflexivity.
Defined.


Lemma login_ignores_trailing_header_text_witness :
  Login.login Demo.auth Demo.platform
    (Demo.post "Basic YWRtaW46c2VjcmV0 and more" (Js.Str "s1")) (Demo.env 5000)
  = Login.login Demo.auth Demo.platform
      (Demo.post "Basic YWRtaW46c2VjcmV0" (Js.Str "s1")) (Demo.env 5000).
Proof.
  apply (login_ignores_trailing_header_text Demo.auth Demo.platform
           (Demo.post "Basic YWRtaW46c2VjcmV0" (Js.Str "s1"))
           (Demo.post "Basic YWRtaW46c2VjcmV0 and more" (Js.Str "s1"))
           "YWRtaW46c2VjcmV0" "and more"); reflexivity.
Defined.

Lemma login_ignores_extra_credential_segments_witness :
  Login.authenticated Demo.auth Demo.platform
    (Demo.post "Basic YWRtaW46c2VjcmV0OmV4dHJh" (Js.Str "s1")) = true.
Proof.
  rewrite (login_ignores_extra_credential_segments Demo.auth Demo.platform
             (Demo.post "Basic YWRtaW46c2VjcmV0OmV4dHJh" (Js.Str "s1"))
             "admin" "secret" "extra"); reflexivity.
Defined.

Lemma login_needs_two_segments_witness :
  Js.contains ":" (username Demo.auth) = false
  /\ Js.contains ":" (password Demo.auth) = false.
Proof.
  destruct (login_needs_two_segments Demo.auth Demo.platform
              (Demo.post "Basic YWRtaW46c2VjcmV0" (Js.Str "s1"))
              ltac:(reflexivity)) as (_ & Hu & Hp).
  exact (conj Hu Hp).
Defined.

(* ===================================================================== *)
(** * Properties of token issue and verification                          *)
(* ===================================================================== *)

Section TokenProperties.

Import Jwt TokenService.

Context (auth : Config) (rt : Platform).


(** Verification by cases; it reads the clock and changes nothing. *)
Lemma verify_cases (presented : Presented) (e : Env) :
  verify auth rt presented e =
    (match presented with
     | WellFormed tok =>
         if signature_ok auth rt tok then
           if expired_at (now e) tok then Threw (ThrowStr "TokenExpired")
           else Returned (uid (payload tok))
         else Threw (ThrowStr "Unauthorized")
     | _ => Threw (ThrowStr "Unauthorized")
     end, e).
Proof.
  unfold verify, bind, Date_now.
  destruct presented as [| raw | tok]; try reflexivity.
  destruct (signature_ok auth rt tok); [| reflexivity].
  destruct (expired_at (now e) tok); reflexivity.
Qed.

(** The outcome of verification depends on the environment through the
    clock only. *)
Lemma verify_clock (presented : Presented) (e e' : Env) :
  now e = now e' ->
  fst (verify auth rt presented e) = fst (verify auth rt presented e').
Proof. intros Hnow. rewrite !verify_cases, Hnow. reflexivity. Qed.





End TokenProperties.



(* ===================================================================== *)
(** * Further properties of token issue                                   *)
(* ===================================================================== *)

Section IssueProperties.

Import Jwt TokenService.

Context (auth : Config) (rt : Platform).


End IssueProperties.


(* ===================================================================== *)
(** * Properties of the protected handlers                                *)
(* ===================================================================== *)

(** Splits on the parameter tests of a handler, in the order the handler
    makes them. *)
Ltac parameter_tests request :=
  repeat match goal with
    | |- context [Js.truthy_str (Http.query request !! ?p)] =>
        let Hp := fresh "Hp" in
        destruct (Js.truthy_str (Http.query request !! p)) eqn:Hp;
        cbn [negb andb forallb] in *
    end.

Section HandlerProperties.

Import Http Courses.

Context (rt : Platform).

(** When a required parameter is missing the handler answers 400 by
    itself: no collaborator is called. *)
Lemma incomplete_request_rejected (svc : Services) :
  Forall (fun ph : list string * (Services -> Platform -> Request -> M unit) =>
            forall request e,
              complete ph.1 request = false ->
              exists reason,
                ph.2 svc rt request e =
                  (Returned tt, answered 400 (Text reason) e))
         protected.
Proof.
  unfold protected. repeat apply List.Forall_cons; [.. | apply List.Forall_nil];
    intros request e; unfold complete; cbn [fst snd forallb].
  - unfold getOneById, bind, respond. parameter_tests request;
      intros Hinc; try discriminate Hinc; eexists; reflexivity.
  - unfold getAllForFaculty, bind, respond. parameter_tests request;
      intros Hinc; try discriminate Hinc; eexists; reflexivity.
  - unfold getAllForProgram, bind, respond. parameter_tests request;
      intros Hinc; try discriminate Hinc; eexists; reflexivity.
  - unfold getAllForBranch, bind, respond. parameter_tests request;
      intros Hinc; try discriminate Hinc; eexists; reflexivity.
Qed.

(** C10: in each of the four protected handlers the test for the
    required query parameters comes before token verification.  A
    request that lacks one is answered 400 and the handler completes
    without having called any collaborator: the trace of calls is as it
    was, so [checkJwt] was not attempted, whatever token the request
    carries and whatever the services would have done. *)
Theorem parameters_checked_before_token (svc : Services) :
  Forall (fun ph : list string * (Services -> Platform -> Request -> M unit) =>
            forall request e,
              complete ph.1 request = false ->
              let e1 := snd (ph.2 svc rt request e) in
              fst (ph.2 svc rt request e) = Returned tt
              /\ statusCode (response e1) = 400
              /\ trace e1 = trace e
              /\ (In (Called "checkJwt") (trace e1) ->
                   In (Called "checkJwt") (trace e)))
         protected.
Proof.
  eapply Forall_impl; [apply (incomplete_request_rejected svc) |].
  intros [params handler] Hrejected request e Hinc.
  destruct (Hrejected request e Hinc) as [reason Hrun].
  cbn [fst snd] in *. rewrite Hrun. cbn [fst snd].
  repeat split. intros Hin. exact Hin.
Qed.

End HandlerProperties.

Lemma parameters_checked_before_token_witness :
  let services := Courses.services Demo.auth Demo.platform in
  let no_token := Demo.get [] Jwt.Absent in
  let e1 := snd (Courses.getAllForFaculty services no_token (Demo.env 5000)) in
  Http.statusCode (response e1) = 400 /\ trace e1 = [].
Proof.
  intros services no_token e1.
  destruct (Forall_lookup_1 _ _ 1 _
              (parameters_checked_before_token Demo.platform services)
              ltac:(reflexivity) no_token (Demo.env 5000) ltac:(reflexivity))
    as (_ & Hstatus & Htrace & _).
  exact (conj Hstatus Htrace).
Defined.

(** Runs a handler whose parameters are all present up to a failing
    [checkJwt]. *)
Ltac verification_fails request :=
  unfold bind, respond, try_catch, call, log, bind;
  match goal with
  | Hcomplete : _ = true |- _ =>
      revert Hcomplete; parameter_tests request; try discriminate; intros _
  end;
  cbn [Courses.services checkJwt]; unfold TokenService.checkJwt;
  rewrite verify_cases; cbn [now with_event with_response];
  match goal with
  | Hthrown : _ = Threw _ |- _ => rewrite Hthrown
  end;
  reflexivity.

Section VerificationProperties.

Import Jwt Http TokenService Courses.

Context (auth : Config) (rt : Platform).

(** With every parameter present the handler calls [checkJwt] first and
    hands whatever it throws to the [catch] block. *)
Lemma complete_request_verified :
  Forall (fun ph : list string * (Services -> Platform -> Request -> M unit) =>
            forall request e t,
              complete ph.1 request = true ->
              fst (verify auth rt (token request) e) = Threw t ->
              exists prefix,
                ph.2 (services auth rt) rt request e =
                  on_error prefix t
                    (with_event (Called "checkJwt")
                       (with_response
                          (set "Access-Control-Allow-Origin" "*") e)))
         protected.
Proof.
  unfold protected. repeat apply List.Forall_cons; [.. | apply List.Forall_nil];
    intros request e t; unfold complete; cbn [fst snd forallb];
    rewrite verify_cases; cbn [fst]; intros Hcomplete Hthrown;
    eexists.
  - unfold getOneById. verification_fails request.
  - unfold getAllForFaculty. verification_fails request.
  - unfold getAllForProgram. verification_fails request.
  - unfold getAllForBranch. verification_fails request.
Qed.

(** C2: verification fails with 'TokenExpired' exactly when the token
    is well-formed, its signature checks and its expiry has passed; it
    fails with 'Unauthorized' exactly when the token is absent,
    malformed or its signature does not check; it fails in no other
    way.  Each protected handler, given its parameters, answers the
    first failure with 401 "Token has expired" and every other
    verification failure with 401 "Unauthorized". *)
Theorem verification_errors_distinct (presented : Presented) (e : Env) :
  let outcome := fst (verify auth rt presented e) in
  (outcome = Threw (ThrowStr "TokenExpired") <->
     exists tok, presented = WellFormed tok
       /\ signature_ok auth rt tok = true
       /\ expired_at (now e) tok = true)
  /\ (outcome = Threw (ThrowStr "Unauthorized") <->
       presented = Absent
       \/ (exists raw, presented = Malformed raw)
       \/ (exists tok, presented = WellFormed tok
             /\ signature_ok auth rt tok = false))
  /\ (forall t, outcome = Threw t ->
        t = ThrowStr "TokenExpired" \/ t = ThrowStr "Unauthorized")
  /\ Forall (fun ph : list string
                       * (Services -> Platform -> Request -> M unit) =>
               forall request,
                 token request = presented ->
                 complete ph.1 request = true ->
                 let r := response
                            (snd (ph.2 (services auth rt) rt request e)) in
                 (outcome = Threw (ThrowStr "TokenExpired") ->
                    statusCode r = 401
                    /\ body r = Some (Text "Token has expired"))
                 /\ (forall t, outcome = Threw t ->
                       t <> ThrowStr "TokenExpired" ->
                       statusCode r = 401
                       /\ body r = Some (Text "Unauthorized")))
            protected.
Proof.
  cbv zeta.
  assert (Honly : forall t, fst (verify auth rt presented e) = Threw t ->
            t = ThrowStr "TokenExpired" \/ t = ThrowStr "Unauthorized").
  { intros t. rewrite verify_cases. cbn [fst].
    destruct presented as [| raw | tok]; try (intros [= <-]; auto).
    destruct (signature_ok auth rt tok); [| intros [= <-]; auto].
    destruct (expired_at (now e) tok); [intros [= <-]; auto | discriminate]. }
  split; [| split; [| split; [exact Honly |]]].
  - rewrite verify_cases. cbn [fst].
    destruct presented as [| raw | tok].
    + split; [discriminate | intros (tok & [=] & _)].
    + split; [discriminate | intros (tok & [=] & _)].
    + destruct (signature_ok auth rt tok) eqn:Hsig.
      * destruct (expired_at (now e) tok) eqn:Hexp.
        -- split; [eauto | reflexivity].
        -- split; [discriminate |].
           intros (tok' & [= <-] & _ & Hexp'). congruence.
      * split; [discriminate |].
        intros (tok' & [= <-] & Hsig' & _). congruence.
  - rewrite verify_cases. cbn [fst].
    destruct presented as [| raw | tok].
    + split; auto.
    + split; eauto.
    + destruct (signature_ok auth rt tok) eqn:Hsig.
      * split.
        -- destruct (expired_at (now e) tok); discriminate.
        -- intros [[=] | [(raw & [=]) | (tok' & [= <-] & Hsig')]].
           congruence.
      * split; eauto.
  - eapply Forall_impl; [apply complete_request_verified |].
    intros [params handler] Hverified request Htoken Hcomplete.
    cbn [fst snd] in *. subst presented. split.
    + intros Hexpired.
      destruct (Hverified request e _ Hcomplete Hexpired) as [prefix ->].
      split; reflexivity.
    + intros t Hthrown Hother.
      destruct (Hverified request e _ Hcomplete Hthrown) as [prefix ->].
      destruct (Honly t Hthrown) as [-> | ->]; [contradiction |].
      split; reflexivity.
Qed.

End VerificationProperties.

Lemma verification_errors_distinct_witness :
  let services := Courses.services Demo.auth Demo.platform in
  let request tok := Demo.get [("facultyId", "F1")] tok in
  let stale :=
    Jwt.WellFormed
      {| Jwt.payload := {| Jwt.uid := Js.Str "s1"; Jwt.iat := 5;
                           Jwt.exp := 3605 |};
         Jwt.signature := "s3cr3t.3605" |} in
  let answer tok :=
    Http.body
      (response (snd (Courses.getAllForFaculty services (request tok)
                        (Demo.env 3605000)))) in
  answer stale = Some (Http.Text "Token has expired")
  /\ answer Jwt.Absent = Some (Http.Text "Unauthorized").
Proof.
  intros services request stale answer. split.
  - destruct (verification_errors_distinct Demo.auth Demo.platform stale
                (Demo.env 3605000)) as (_ & _ & _ & Hhandlers).
    destruct (Forall_lookup_1 _ _ 1 _ Hhandlers ltac:(reflexivity)
                (request stale) ltac:(reflexivity) ltac:(reflexivity))
      as [Hexpired _].
    apply Hexpired. reflexivity.
  - destruct (verification_errors_distinct Demo.auth Demo.platform Jwt.Absent
                (Demo.env 3605000)) as (_ & _ & _ & Hhandlers).
    destruct (Forall_lookup_1 _ _ 1 _ Hhandlers ltac:(reflexivity)
                (request Jwt.Absent) ltac:(reflexivity) ltac:(reflexivity))
      as [_ Hother].
    apply (Hother (ThrowStr "Unauthorized")); [reflexivity | discriminate].
Defined.

(* ===================================================================== *)
(** * Further properties of the protected handlers                        *)
(* ===================================================================== *)

Section EndpointProperties.

Import Http Courses Endpoints.

Context (svc : Services) (rt : Platform).

Lemma on_error_failure (prefix : string) (error : Thrown) (e : Env) :
  on_error prefix error e =
    (Returned tt,
     with_response (send (Text (failure prefix error).2))
       (with_response (status (failure prefix error).1) e)).
Proof.
  unfold on_error, failure.
  destruct (is_str error "TokenExpired"); [reflexivity |].
  destruct (is_str error "Unauthorized"); reflexivity.
Qed.

(** Each handler by cases: on its parameters, then on what [checkJwt]
    does, then on what the repository does. *)
Lemma endpoint_cases :
  Forall (fun ep =>
            forall request e,
              (complete (required ep) request = false ->
                 exists reason,
                   handler ep svc rt request e =
                     (Returned tt, answered 400 (Text reason) e))
              /\ (complete (required ep) request = true ->
                    handler ep svc rt request e =
                      match checkJwt svc request (at_check e) with
                      | (Threw t, e3) => on_error (prefix ep) t e3
                      | (Returned _, e3) =>
                          match data ep svc rt request
                                  (with_event (Called (callee ep)) e3) with
                          | (Returned d, e4) =>
                              (Returned tt,
                               with_response (send (JsonResult d))
                                 (with_response (status 200) e4))
                          | (Threw t, e4) => on_error (prefix ep) t e4
                          end
                      end))
         endpoints.
Proof.
  unfold endpoints.
  repeat apply List.Forall_cons; [.. | apply List.Forall_nil];
    intros request e; split; unfold complete;
    cbn [required prefix callee data handler forallb];
    unfold getOneById, getAllForFaculty, getAllForProgram, getAllForBranch,
      at_check, bind, respond, try_catch, call, log, bind, ret;
    parameter_tests request; intros Hc; try discriminate Hc;
    try (eexists; reflexivity);
    repeat match goal with
      | |- context [checkJwt svc request ?e0] =>
          destruct (checkJwt svc request e0) as [[v | t] e3]
      | |- context [getItemByFacultyAndCollectionAndItemId svc ?a ?b ?c ?e0] =>
          destruct (getItemByFacultyAndCollectionAndItemId svc a b c e0)
            as [[r | t'] e4]
      | |- context [getAllFacultyCollectionItems svc ?a ?b ?e0] =>
          destruct (getAllFacultyCollectionItems svc a b e0) as [[r | t'] e4]
      | |- context [getItemByFacultyAndCollectionAndFilterById
                      svc ?a ?b ?c ?d ?e0] =>
          destruct (getItemByFacultyAndCollectionAndFilterById svc a b c d e0)
            as [[r | t'] e4]
      end;
    reflexivity.
Qed.


(** Token verification guards the data.  When [checkJwt] throws, the
    handler goes straight to its [catch] block: the repository is not
    called.  And a response that carries a result was produced by a
    request with all its parameters, for which [checkJwt] returned, and
    the result is what the repository gave for those parameters. *)
Theorem verification_guards_data :
  Forall (fun ep =>
            forall request e,
              (forall t e3,
                 complete (required ep) request = true ->
                 checkJwt svc request (at_check e) = (Threw t, e3) ->
                 handler ep svc rt request e = on_error (prefix ep) t e3
                 /\ trace (snd (handler ep svc rt request e)) = trace e3)
              /\ (forall d,
                    body (response (snd (handler ep svc rt request e)))
                    = Some (JsonResult d) ->
                    complete (required ep) request = true
                    /\ exists subject e3 e4,
                         checkJwt svc request (at_check e)
                         = (Returned subject, e3)
                         /\ data ep svc rt request
                              (with_event (Called (callee ep)) e3)
                            = (Returned d, e4)))
         endpoints.
Proof.
  eapply Forall_impl; [apply endpoint_cases |].
  intros ep Hcases request e. destruct (Hcases request e) as [Hno Hyes].
  split.
  - intros t e3 Hc Hthrown. rewrite (Hyes Hc), Hthrown.
    split; [reflexivity |]. now rewrite on_error_failure.
  - intros d. destruct (complete (required ep) request) eqn:Hc.
    + rewrite (Hyes eq_refl).
      destruct (checkJwt svc request (at_check e)) as [[subject | t] e3].
      * destruct (data ep svc rt request _) as [[d' | t] e4] eqn:Hdata.
        -- cbn. intros [= <-]. split; [reflexivity |]. eauto.
        -- rewrite on_error_failure. cbn. discriminate.
      * rewrite on_error_failure. cbn. discriminate.
    + destruct (Hno eq_refl) as [reason ->]. cbn. discriminate.
Qed.

(** With the token verified, a failure of the repository is answered
    from the [catch] block: an [Error] gives 500 with the handler's
    prefix followed by the error's message (a document that is not
    found is such an error); but the bare strings 'TokenExpired' and
    'Unauthorized', were the repository to throw them, are answered 401
    like a token failure. *)
Theorem repository_failure_reported :
  Forall (fun ep =>
            forall request e subject e3 t e4,
              complete (required ep) request = true ->
              checkJwt svc request (at_check e) = (Returned subject, e3) ->
              data ep svc rt request (with_event (Called (callee ep)) e3)
              = (Threw t, e4) ->
              let r := response (snd (handler ep svc rt request e)) in
              fst (handler ep svc rt request e) = Returned tt
              /\ (forall m, t = ThrowError m ->
                    statusCode r = 500
                    /\ body r = Some (Text (prefix ep ++ m)))
              /\ (forall s, t = ThrowStr s ->
                    s <> "TokenExpired" -> s <> "Unauthorized" ->
                    statusCode r = 500
                    /\ body r = Some (Text (prefix ep ++ "undefined")))
              /\ (t = ThrowStr "Unauthorized" ->
                    statusCode r = 401
                    /\ body r = Some (Text "Unauthorized"))
              /\ (t = ThrowStr "TokenExpired" ->
                    statusCode r = 401
                    /\ body r = Some (Text "Token has expired")))
         endpoints.
Proof.
  eapply Forall_impl; [apply endpoint_cases |].
  intros ep Hcases request e subject e3 t e4 Hc Hcheck Hdata.
  destruct (Hcases request e) as [_ Hyes].
  cbv zeta. rewrite (Hyes Hc), Hcheck, Hdata, on_error_failure.
  cbn [fst snd]. split; [reflexivity |].
  split; [| split; [| split]].
  - intros m ->. split; reflexivity.
  - intros s -> Hne1 Hne2. unfold failure. cbn [is_str].
    apply String.eqb_neq in Hne1, Hne2. rewrite Hne1, Hne2.
    split; reflexivity.
  - intros ->. split; reflexivity.
  - intros ->. split; reflexivity.
Qed.

(** With its parameters present and the token verified, each handler
    asks the repository for the "courses" of the faculty named in the
    query (one by id; all; or those whose [programId], respectively
    [branchId], is [Number] of the query parameter, whatever that
    number is) and answers 200 with exactly what the repository
    returns. *)
Theorem repository_result_passed_on :
  Forall (fun ep =>
            forall request e subject e3 d e4,
              complete (required ep) request = true ->
              checkJwt svc request (at_check e) = (Returned subject, e3) ->
              data ep svc rt request (with_event (Called (callee ep)) e3)
              = (Returned d, e4) ->
              handler ep svc rt request e =
                (Returned tt,
                 with_response (send (JsonResult d))
                   (with_response (status 200) e4)))
         endpoints.
Proof.
  eapply Forall_impl; [apply endpoint_cases |].
  intros ep Hcases request e subject e3 d e4 Hc Hcheck Hdata.
  destruct (Hcases request e) as [_ Hyes].
  now rewrite (Hyes Hc), Hcheck, Hdata.
Qed.

End EndpointProperties.

Lemma verification_guards_data_witness :
  let services := Courses.services Demo.auth Demo.platform in
  let request := Demo.get [("facultyId", "F1")] (Jwt.Malformed "abc") in
  trace (snd (Courses.getAllForFaculty services request (Demo.env 5000)))
  = [Called "checkJwt"].
Proof.
  intros services request.
  destruct (Forall_lookup_1 _ _ 1 _
              (verification_guards_data services Demo.platform)
              ltac:(reflexivity) request (Demo.env 5000)) as [Hstop _].
  destruct (Hstop (ThrowStr "Unauthorized")
              (Endpoints.at_check (Demo.env 5000))
              ltac:(reflexivity) ltac:(reflexivity)) as [_ Htrace].
  exact Htrace.
Defined.

Lemma repository_failure_reported_witness :
  let services := Courses.services Demo.auth Demo.platform in
  let token :=
    Jwt.WellFormed
      {| Jwt.payload := {| Jwt.uid := Js.Str "s1"; Jwt.iat := 5;
                           Jwt.exp := 3605 |};
         Jwt.signature := "s3cr3t.3605" |} in
  let request :=
    Demo.get [("facultyId", "F1"); ("courseId", "c9")] token in
  let r := response (snd (Courses.getOneById services request
                            (Demo.env 5000))) in
  Http.statusCode r = 500
  /\ Http.body r = Some (Http.Text "Failed to find course: NotFound").
Proof.
  intros services token request r.
  destruct (Forall_lookup_1 _ _ 0 _
              (repository_failure_reported services Demo.platform)
              ltac:(reflexivity) request (Demo.env 5000) (Js.Str "s1")
              (Endpoints.at_check (Demo.env 5000)) (ThrowError "NotFound")
              (with_event (Called "getItemByFacultyAndCollectionAndItemId")
                 (Endpoints.at_check (Demo.env 5000)))
              ltac:(reflexivity) ltac:(reflexivity) ltac:(reflexivity))
    as (_ & Herror & _).
  exact (Herror "NotFound" eq_refl).
Defined.

Lemma repository_result_passed_on_witness :
  let services := Courses.services Demo.auth Demo.platform in
  let token :=
    Jwt.WellFormed
      {| Jwt.payload := {| Jwt.uid := Js.Str "s1"; Jwt.iat := 5;
                           Jwt.exp := 3605 |};
         Jwt.signature := "s3cr3t.3605" |} in
  let request :=
    Demo.get [("facultyId", "F1"); ("branchId", "x")] token in
  Http.body (response (snd (Courses.getAllForBranch services Demo.platform
                              request (Demo.env 5000))))
  = Some (Http.JsonResult (Http.Many [])).
Proof.
  intros services token request.
  pose proof (Forall_lookup_1 _ _ 3 _
                (repository_result_passed_on services Demo.platform)
                ltac:(reflexivity) request (Demo.env 5000) (Js.Str "s1")
                (Endpoints.at_check (Demo.env 5000)) (Http.Many [])
                (with_event
                   (Called "getItemByFacultyAndCollectionAndFilterById")
                   (Endpoints.at_check (Demo.env 5000)))
                ltac:(reflexivity) ltac:(reflexivity) ltac:(reflexivity))
    as Hrun.
  cbn [Endpoints.handler] in Hrun. rewrite Hrun. reflexivity.
Defined.

(* ===================================================================== *)
(** * Properties of the faculty collection queries                        *)
(* ===================================================================== *)

Section QueryProperties.

Import Firestore FacultyCollections.

(** A [where] clause keeps the documents in their order and adds
    none. *)
Lemma where_eq_sublist (field : string) (value : FieldValue)
    (docs : list Item) :
  sublist (where_eq field value docs) docs.
Proof.
  induction docs as [| it docs IH]; cbn.
  - constructor.
  - destruct (field_eq field value it); now constructor.
Qed.

Lemma where_eq_In (field : string) (value : FieldValue) (docs : list Item)
    (it : Item) :
  In it (where_eq field value docs) <->
  In it docs /\ item_data it !! field = Some value.
Proof.
  unfold where_eq. rewrite List.filter_In. unfold field_eq.
  rewrite bool_decide_eq_true. reflexivity.
Qed.

(** C7: the filter query over a faculty's collection (in particular
    "courses") succeeds without touching the environment, and returns,
    in the collection's order, exactly the items whose named field holds
    the given number: an item whose field holds a string, even the
    digits of that number, is not returned; and when no item matches the
    result is the empty sequence, not an error. *)
Theorem filter_returns_numeric_matches (facultyId collectionName : string)
    (fieldName : string) (fieldValue : Js.Num) (e : Env) :
  exists items,
    getItemByFacultyAndCollectionAndFilterById
      facultyId collectionName fieldName fieldValue e = (Returned items, e)
    /\ (forall it,
          In it items <->
          In it (collection (faculties e) facultyId collectionName)
          /\ item_data it !! fieldName = Some (FNumber fieldValue))
    /\ sublist items (collection (faculties e) facultyId collectionName)
    /\ (forall it s,
          item_data it !! fieldName = Some (FString s) -> ~ In it items)
    /\ ((forall it,
           In it (collection (faculties e) facultyId collectionName) ->
           item_data it !! fieldName <> Some (FNumber fieldValue)) ->
        items = []).
Proof.
  eexists. split; [reflexivity |].
  split; [intros it; apply where_eq_In |].
  split; [apply where_eq_sublist |].
  split.
  - intros it s Hs Hin. apply where_eq_In in Hin as [_ Hnum]. congruence.
  - intros Hnone.
    destruct (where_eq fieldName (FNumber fieldValue)
                (collection (faculties e) facultyId collectionName))
      as [| it items] eqn:Hitems; [reflexivity |].
    assert (Hin : In it (where_eq fieldName (FNumber fieldValue)
                (collection (faculties e) facultyId collectionName))).
    { rewrite Hitems. now left. }
    apply where_eq_In in Hin as [Hin Hnum]. now apply Hnone in Hin.
Qed.

(** The program handler, given its parameters and a token that
    verifies, answers 200 with the courses whose [programId] is the
    number the query parameter converts to. *)
Lemma getAllForProgram_filters (auth : Config) (rt : Platform)
    (request : Http.Request) (e : Env) (subject : Js.Value) :
  Courses.complete ["facultyId"; "programId"] request = true ->
  fst (TokenService.verify auth rt (Http.token request) e)
    = Returned subject ->
  let e1 := snd (Courses.getAllForProgram (Courses.services auth rt) rt
                   request e) in
  Http.statusCode (response e1) = 200
  /\ Http.body (response e1) =
       Some (Http.JsonResult
               (Http.Many
                  (where_eq "programId"
                     (FNumber
                        (toNumber rt
                           (Js.the (Http.query request !! "programId"))))
                     (collection (faculties e)
                        (Js.the (Http.query request !! "facultyId"))
                        "courses"))))
  /\ trace e1 =
       (trace e ++ [Called "checkJwt";
                    Called "getItemByFacultyAndCollectionAndFilterById"])%list.
Proof.
  unfold Courses.complete. cbn [forallb]. rewrite verify_cases. cbn [fst].
  intros Hcomplete Hverified. cbv zeta.
  unfold Courses.getAllForProgram, bind, respond, try_catch, call, log, bind.
  revert Hcomplete. parameter_tests request; try discriminate. intros _.
  cbn [Courses.services checkJwt getItemByFacultyAndCollectionAndFilterById].
  unfold TokenService.checkJwt. rewrite verify_cases.
  cbn [now with_event with_response]. rewrite Hverified.
  unfold FacultyCollections.getItemByFacultyAndCollectionAndFilterById.
  cbn. rewrite <- app_assoc. repeat split.
Qed.

End QueryProperties.

Lemma filter_returns_numeric_matches_witness :
  fst (FacultyCollections.getItemByFacultyAndCollectionAndFilterById
         "F1" "courses" "programId" (Js.Int 3) (Demo.env 0))
    = Returned [Demo.course "c1" (Firestore.FNumber (Js.Int 3))]
  /\ fst (FacultyCollections.getItemByFacultyAndCollectionAndFilterById
            "F1" "courses" "programId" (Js.Int 7) (Demo.env 0))
       = Returned [].
Proof.
  split; [reflexivity |].
  destruct (filter_returns_numeric_matches "F1" "courses" "programId"
              (Js.Int 7) (Demo.env 0)) as (items & Hrun & _ & _ & _ & Hnone).
  rewrite Hrun. cbn [fst]. f_equal. apply Hnone.
  intros it [<- | [<- | [<- | []]]]; discriminate.
Defined.

(* ===================================================================== *)
(** * An end-to-end scenario                                              *)
(* ===================================================================== *)

(** The administrator logs in for "s1" and receives 200 and a token
    cookie; a minute later the course list of faculty F1 is served to a
    request carrying that token and refused, with 401, to one without
    it; filtering by program 3 serves the one course whose [programId]
    is the number 3. *)
Example login_then_list_courses :
  let services := Courses.services Demo.auth Demo.platform in
  let e1 := snd (Login.login Demo.auth Demo.platform
                   (Demo.post "Basic YWRtaW46c2VjcmV0" (Js.Str "s1"))
                   (Demo.env 5000)) in
  let answer (handler : Http.Request -> M unit) request :=
    let r := response (snd (handler request (Demo.env 65000))) in
    (Http.statusCode r, Http.body r) in
  Http.statusCode (response e1) = 200
  /\ exists c,
       Http.cookies (response e1) = [c]
       /\ answer (Courses.getAllForFaculty services)
            (Demo.get [("facultyId", "F1")]
               (Jwt.WellFormed (Http.cookie_value c)))
          = (200, Some (Http.JsonResult (Http.Many Demo.courses)))
       /\ answer (Courses.getAllForFaculty services)
            (Demo.get [("facultyId", "F1")] Jwt.Absent)
          = (401, Some (Http.Text "Unauthorized"))
       /\ answer (Courses.getAllForProgram services Demo.platform)
            (Demo.get [("facultyId", "F1"); ("programId", "3")]
               (Jwt.WellFormed (Http.cookie_value c)))
          = (200, Some (Http.JsonResult
                          (Http.Many [Demo.course "c1"
                                        (Firestore.FNumber (Js.Int 3))]))).
Proof.
  cbv zeta. split; [reflexivity |].
  eexists. split; [reflexivity |].
  repeat split.
Qed.

(* ===================================================================== *)
(** * Properties of the branches hook                                     *)
(* ===================================================================== *)

Section HookProperties.

Import Firestore Branches.

Context (rt : Platform) (backend : Backend).

Lemma listed_lookup (doc : Item) (k : string) :
  listed doc !! k =
    match item_data doc !! k with
    | Some v => Some v
    | None => if bool_decide (k = "id") then Some (FString (item_id doc))
              else None
    end.
Proof.
  unfold listed. rewrite lookup_union.
  destruct (item_data doc !! k) as [v |]; cbn.
  - now destruct (_ !! k).
  - case_bool_decide as Hk.
    + subst k. now rewrite lookup_insert_eq.
    + rewrite lookup_insert_ne by congruence. now rewrite lookup_empty.
Qed.

(** With a faculty, a program and a year selected and the store within
    reach, [fetchBranches] ends with no error, not loading, and with one
    entry per branch of the faculty whose [programId] is the number the
    selected program converts to and whose [year] is the selected year,
    in the store's order.  An entry has the fields of its document, and
    as [id] the document's id unless the document stores an [id] field
    of its own. *)
Theorem fetchBranches_lists_matches (facultyId : string)
    (programId : StrOrNum) (year : Js.Num) (s : State) :
  failing backend = None ->
  facultyId <> EmptyString ->
  truthy programId = true ->
  let s1 := fetchBranches rt backend facultyId programId (Some year) s in
  loading s1 = false
  /\ error s1 = None
  /\ exists docs,
       branches s1 = List.map listed docs
       /\ sublist docs (collection (documents backend) facultyId "branches")
       /\ (forall doc,
             In doc docs <->
             In doc (collection (documents backend) facultyId "branches")
             /\ item_data doc !! "programId"
                = Some (FNumber (Number rt programId))
             /\ item_data doc !! "year" = Some (FNumber year))
       /\ (forall doc k, k <> "id" -> listed doc !! k = item_data doc !! k)
       /\ (forall doc,
             listed doc !! "id"
             = Some (default (FString (item_id doc))
                       (item_data doc !! "id"))).
Proof.
  intros Hup Hfaculty Hprogram. cbv zeta. unfold fetchBranches, get.
  apply String.eqb_neq in Hfaculty.
  cbn [Js.truthy_str]. rewrite Hfaculty, Hprogram, Hup. cbn.
  split; [reflexivity |]. split; [reflexivity |].
  eexists. split; [reflexivity |].
  split; [| split; [| split]].
  - etrans; apply where_eq_sublist.
  - intros doc. rewrite !where_eq_In. tauto.
  - intros doc k Hk. rewrite listed_lookup.
    destruct (item_data doc !! k); [reflexivity |].
    case_bool_decide; [contradiction | reflexivity].
  - intros doc. rewrite listed_lookup.
    now destruct (item_data doc !! "id").
Qed.

(** However it ends, [fetchBranches] leaves the hook not loading.
    Without a faculty, a program or a year it lists no branch and leaves
    the last error in place; when the store rejects the query it keeps
    the branches it had and records the error's message. *)
Theorem fetchBranches_settles (facultyId : string) (programId : StrOrNum)
    (selectedYear : option Js.Num) (s : State) :
  let s1 := fetchBranches rt backend facultyId programId selectedYear s in
  loading s1 = false
  /\ (facultyId = EmptyString \/ truthy programId = false
      \/ selectedYear = None ->
        branches s1 = [] /\ error s1 = error s)
  /\ (forall message,
        failing backend = Some message ->
        facultyId <> EmptyString ->
        truthy programId = true ->
        selectedYear <> None ->
        branches s1 = branches s /\ error s1 = Some message).
Proof.
  cbv zeta. unfold fetchBranches, get. cbn [Js.truthy_str].
  destruct (String.eqb facultyId EmptyString) eqn:Hfaculty; cbn [negb andb].
  { apply String.eqb_eq in Hfaculty. split; [reflexivity |].
    split; [auto | intros; contradiction]. }
  apply String.eqb_neq in Hfaculty.
  destruct (truthy programId); cbn [andb].
  2: { split; [reflexivity |]. split; [auto | intros; discriminate]. }
  case_bool_decide as Hyear.
  2: { split; [reflexivity |]. split; [auto | intros; contradiction]. }
  destruct (failing backend) as [message |]; cbn.
  - split; [reflexivity |]. split.
    + intros [? | [? | ?]]; [contradiction | discriminate | contradiction].
    + intros message' [= <-] _ _ _. auto.
  - split; [reflexivity |]. split.
    + intros [? | [? | ?]]; [contradiction | discriminate | contradiction].
    + intros message' [=].
Qed.

End HookProperties.

Lemma fetchBranches_lists_matches_witness :
  let s1 := Branches.fetchBranches Demo.platform DemoPage.online "F1"
              (Branches.OfStr "3") (Some (Js.Int 1)) Branches.initial in
  Branches.loading s1 = false
  /\ Branches.error s1 = None
  /\ length (Branches.branches s1) = 1%nat.
Proof.
  intros s1.
  destruct (fetchBranches_lists_matches Demo.platform DemoPage.online "F1"
              (Branches.OfStr "3") (Js.Int 1) Branches.initial
              ltac:(reflexivity) ltac:(discriminate) ltac:(reflexivity))
    as (Hloading & Herror & _).
  refine (conj Hloading (conj Herror _)). reflexivity.
Defined.

Lemma fetchBranches_settles_witness :
  let busy := Branches.setBranches
                [Branches.listed
                   (DemoPage.branch "b1" (Firestore.FNumber (Js.Int 3))
                      (Firestore.FNumber (Js.Int 1)))]
                Branches.initial in
  Branches.branches
    (Branches.fetchBranches Demo.platform DemoPage.online "F1"
       (Branches.OfNum (Js.Int 0)) (Some (Js.Int 1)) busy) = []
  /\ Branches.error
       (Branches.fetchBranches Demo.platform DemoPage.offline "F1"
          (Branches.OfStr "3") (Some (Js.Int 0)) busy)
     = Some "Failed to get documents".
Proof.
  intros busy. split.
  - destruct (fetchBranches_settles Demo.platform DemoPage.online "F1"
                (Branches.OfNum (Js.Int 0)) (Some (Js.Int 1)) busy)
      as (_ & Hcleared & _).
    apply Hcleared. right. left. reflexivity.
  - destruct (fetchBranches_settles Demo.platform DemoPage.offline "F1"
                (Branches.OfStr "3") (Some (Js.Int 0)) busy)
      as (_ & _ & Hfailed).
    apply (Hfailed "Failed to get documents");
      [reflexivity | discriminate | reflexivity | discriminate].
Defined.

(* ===================================================================== *)
(** * Properties of the menus                                             *)
(* ===================================================================== *)

Section MenuProperties.

Import Menus.




End MenuProperties.


(* ===================================================================== *)
(** * Properties of the timetable page                                    *)
(* ===================================================================== *)

Section PageProperties.

Import Timetable.

Context (props : Props).

Lemma mode_of_not_Add (event : Event) : mode_of event <> Add.
Proof. unfold mode_of. destruct (editable (extendedProps event)); discriminate. Qed.

Lemma step_modal_ok (a : Action) (s : State) :
  modal_ok props s -> modal_ok props (step props a s).
Proof.
  intros [Hshown Hguest].
  destruct a as [reply | clicked | | | reply | f | p d | y]; cbn [step].
  - unfold fetchEvents.
    destruct reply as [| [|] [data |]]; split; cbn; assumption.
  - unfold handleEventClick.
    destruct (List.find _ (events s)) as [event |]; [| split; assumption].
    cbn. split.
    + intros _ _. exists event. split; reflexivity.
    + intros _ _. apply mode_of_not_Add.
  - unfold handleCloseModal. split; cbn; discriminate.
  - unfold handleDateSelect.
    destruct (isAuthenticated props) eqn:Hauth.
    + split; cbn; intros; congruence.
    + split; [exact Hshown | intros _; exact (Hguest eq_refl)].
  - unfold handleAddEvent.
    destruct reply as [| [|] [[] |]]; try (split; assumption).
    split; cbn; discriminate.
  - split; cbn; assumption.
  - split; cbn; assumption.
  - split; cbn; assumption.
Qed.

(** From the initial state, whatever the user and the network do: while
    the modal is open in view or edit mode it shows a selected event,
    in edit mode exactly when that event is editable; and for a visitor
    who is not authenticated the modal is never open in add mode.  A
    click on an event that is not listed changes nothing. *)
Theorem modal_shows_what_was_chosen (actions : list Action) :
  let s := run props actions initial in
  (open s = true -> mode s <> Add ->
     exists event, selectedEvent s = Some event /\ mode s = mode_of event)
  /\ (isAuthenticated props = false -> open s = true -> mode s <> Add)
  /\ (forall clicked,
        (forall event, In event (events s) -> id event <> clicked) ->
        step props (EventClick clicked) s = s).
Proof.
  cbv zeta.
  assert (Hinv : forall s0,
            modal_ok props s0 -> modal_ok props (run props actions s0)).
  { induction actions as [| a actions IH]; intros s0 Hok; [exact Hok |].
    cbn [run fold_left]. apply IH. now apply step_modal_ok. }
  destruct (Hinv initial) as [Hshown Hguest].
  { split; cbn; discriminate. }
  split; [exact Hshown |]. split; [exact Hguest |].
  intros clicked Hunlisted. cbn [step]. unfold handleEventClick.
  destruct (List.find _ _) as [event |] eqn:Hfound; [| reflexivity].
  apply List.find_some in Hfound as [Hin Heq].
  apply String.eqb_eq in Heq. now apply Hunlisted in Hin.
Qed.

End PageProperties.

Lemma modal_shows_what_was_chosen_witness :
  let actions :=
    [ Timetable.EventsFetched
        (Timetable.Answered true
           (Some [DemoPage.lecture "1" true; DemoPage.lecture "2" false]));
      Timetable.DateSelect;
      Timetable.EventClick "2";
      Timetable.SelectYear (Some (Js.Int 1)) ] in
  let s := Timetable.run DemoPage.visitor actions Timetable.initial in
  Timetable.mode s <> Timetable.Add
  /\ Timetable.step DemoPage.visitor (Timetable.EventClick "7") s = s.
Proof.
  intros actions s.
  destruct (modal_shows_what_was_chosen DemoPage.visitor actions)
    as (_ & Hguest & Hunlisted).
  split.
  - apply Hguest; reflexivity.
  - apply Hunlisted.
    intros event [<- | [<- | []]]; discriminate.
Defined.

Section ProgramChoice.

Import Menus.

Context (rt : Platform) (backend : Branches.Backend).


End ProgramChoice.

